(** * twitter-search-mwe: a shallow embedding of the search script

    The script builds a search query, sends it through a [tweepy] client,
    looks up the author of every returned tweet and prints the formatted
    tweets.  Python objects become records, attribute assignment becomes
    explicit state passing, exceptions become the [Raise] branch of
    [result], and the two network calls and [print] are recorded in a
    trace kept by the monad [M]. *)

From Stdlib Require Import ZArith String Ascii List DecimalString DecimalPos DecimalZ Lia.
From stdpp Require Import base option gmap strings.
Import ListNotations.

Open Scope string_scope.

(** ** The Python runtime *)

(** Values that may sit in a dynamically typed slot: [None], an [int], a
    [str]. *)
Inductive pyval :=
| VNone
| VInt (z : Z)
| VStr (s : string).

(** The exceptions the script meets.  [ApiError] stands for whatever the
    client library raises on a failed request. *)
Inductive exn :=
| AttributeError (msg : string)
| KeyError (key : string)
| TypeError (msg : string)
| ApiError (msg : string).

Inductive result (A : Type) :=
| Ok (a : A)
| Raise (e : exn).
Arguments Ok {A} a.
Arguments Raise {A} e.

Definition is_ok {A} (r : result A) : bool :=
  match r with Ok _ => true | Raise _ => false end.

Module Py.

Definition TAB : string := String "009"%char "".
Definition NL : string := String "010"%char "".

(** [str(n)] for an [int]: decimal digits, a leading [-] when negative. *)
Definition str_int (n : Z) : string := NilZero.string_of_int (Z.to_int n).

(** [sep.join(l)] *)
Definition join (sep : string) (l : list string) : string :=
  String.concat sep l.

(** [str(l)] for a list whose elements have the given [repr]. *)
Definition str_list {A} (repr : A -> string) (l : list A) : string :=
  "[" +:+ join ", " (map repr l) +:+ "]".

(** The name [type(v).__name__] shows in error messages. *)
Definition type_name (v : pyval) : string :=
  match v with
  | VNone => "NoneType"
  | VInt _ => "int"
  | VStr _ => "str"
  end.

(** [s + v] where [s] is a [str]: only a [str] can be appended. *)
Definition str_add (s : string) (v : pyval) : result string :=
  match v with
  | VStr u => Ok (s +:+ u)
  | _ => Raise (TypeError ("can only concatenate str (not " +:+ String "034"%char ""
                           +:+ type_name v +:+ String "034"%char "" +:+ ") to str"))
  end.

End Py.

(** ** The client library

    What the script uses of [tweepy]: the records a request returns and a
    client holding the five credentials.  The types whose inside the script
    never looks at, and the remote service, are an interface. *)

Class TweepyData := {
  (** [datetime.datetime], the type of [created_at], and its [str] *)
  datetime : Type;
  str_datetime : datetime -> string;
  (** [tweepy.ReferencedTweet] and its [repr] *)
  ReferencedTweet : Type;
  repr_ReferencedTweet : ReferencedTweet -> string
}.

Module tweepy.

(** [tweepy.Tweet], with the fields requested by [tweet_fields]. *)
Record Tweet `{TweepyData} := {
  id : Z;
  text : string;
  author_id : Z;
  created_at : datetime;
  referenced_tweets : option (list ReferencedTweet)
}.

(** [tweepy.User] is read as a mapping from field names to values. *)
Abbreviation User := (gmap string pyval).

(** [tweepy.Response]: only [data] is read; it is [None] when the request
    matched nothing. *)
Record Response (A : Type) := { data : option A }.
Arguments data {A} _.

(** [tweepy.Client(bearer_token, consumer_key, consumer_secret,
    access_token, access_token_secret)] *)
Record Client := {
  bearer_token : string;
  consumer_key : string;
  consumer_secret : string;
  access_token : string;
  access_token_secret : string
}.

(** Keyword arguments, in the order they were written. *)
Abbreviation kwargs := (list (string * list string)).

End tweepy.

(** The remote service: each request may change its state and either
    answers or raises. *)
Class TweepyApi `{TweepyData} := {
  remote : Type;
  api_search_recent_tweets :
    tweepy.Client -> string -> tweepy.kwargs -> remote ->
    result (tweepy.Response (list tweepy.Tweet)) * remote;
  api_get_user :
    tweepy.Client -> Z -> remote -> result (tweepy.Response tweepy.User) * remote
}.

(** ** Effects *)

(** What the outside world sees of a run, in order. *)
Inductive event :=
| SearchRecentTweets (c : tweepy.Client) (query : string) (kw : tweepy.kwargs)
| GetUser (c : tweepy.Client) (id : Z)
| Print (s : string).

Record world `{TweepyApi} := {
  net : remote;
  trace : list event
}.

Definition M `{TweepyApi} (A : Type) : Type := world -> result A * world.

Definition ret `{TweepyApi} {A} (a : A) : M A := fun w => (Ok a, w).

Definition raise `{TweepyApi} {A} (e : exn) : M A := fun w => (Raise e, w).

Definition bind `{TweepyApi} {A B} (m : M A) (k : A -> M B) : M B :=
  fun w =>
    match m w with
    | (Ok a, w') => k a w'
    | (Raise e, w') => (Raise e, w')
    end.

Definition lift `{TweepyApi} {A} (r : result A) : M A := fun w => (r, w).

Definition emit `{TweepyApi} (e : event) : M unit :=
  fun w => (Ok tt, {| net := net w; trace := trace w ++ [e] |}).

Declare Scope py_scope.
Delimit Scope py_scope with py.
Notation "x <- c1 ;; c2" := (bind c1 (fun x => c2))
  (at level 100, c1 at next level, right associativity) : py_scope.
Notation "c1 ;; c2" := (bind c1 (fun _ => c2))
  (at level 100, right associativity) : py_scope.
Open Scope py_scope.

(** [for x in l: body x] *)
Fixpoint for_each `{TweepyApi} {A} (l : list A) (body : A -> M unit) : M unit :=
  match l with
  | [] => ret tt
  | x :: l' => body x ;; for_each l' body
  end.

(** The two client methods: the request is logged, then answered by the
    remote service. *)
Module Client.

(** [tweepy.Client(...)] with its arguments by position; no request is made. *)
Definition __init__
    (bearer_token consumer_key consumer_secret access_token access_token_secret : string)
  : tweepy.Client :=
  {| tweepy.bearer_token := bearer_token;
     tweepy.consumer_key := consumer_key;
     tweepy.consumer_secret := consumer_secret;
     tweepy.access_token := access_token;
     tweepy.access_token_secret := access_token_secret |}.

Definition search_recent_tweets `{TweepyApi}
    (self : tweepy.Client) (query : string) (kw : tweepy.kwargs)
  : M (tweepy.Response (list tweepy.Tweet)) :=
  fun w =>
    let (r, n) := api_search_recent_tweets self query kw (net w) in
    (r, {| net := n; trace := trace w ++ [SearchRecentTweets self query kw] |}).

Definition get_user `{TweepyApi} (self : tweepy.Client) (id : Z)
  : M (tweepy.Response tweepy.User) :=
  fun w =>
    let (r, n) := api_get_user self id (net w) in
    (r, {| net := n; trace := trace w ++ [GetUser self id] |}).

End Client.

(** The [__str__] protocol: what [str(obj)] and [print(obj)] call. *)
Class HasStr `{TweepyApi} (A : Type) := dunder_str : A -> M pyval.

(** [str(obj)]: the value [__str__] returns must be a [str]. *)
Definition str `{TweepyApi} {A} `{!HasStr A} (obj : A) : M string :=
  v <- dunder_str obj ;;
  match v with
  | VStr s => ret s
  | _ => raise (TypeError ("__str__ returned non-string (type " +:+ Py.type_name v +:+ ")"))
  end.

(** [print(obj)]: the text of [obj] goes to standard output. *)
Definition print `{TweepyApi} {A} `{!HasStr A} (obj : A) : M unit :=
  s <- str obj ;; emit (Print s).

(** ** The script *)

Module Tweet.

Record t `{TweepyData} := {
  id : Z;
  text : string;
  link : string;
  user_id : Z;
  user_resp : tweepy.Response tweepy.User;
  user_name : pyval;
  time : datetime;
  context : option (list ReferencedTweet)
}.

Definition link_prefix : string := "https://www.twitter.com/user/status/".

(** [Tweet(tweet, user)]; [user = None] is the default of the parameter. *)
Definition __init__ `{TweepyData}
    (tweet : tweepy.Tweet) (user : option (tweepy.Response tweepy.User))
  : result t :=
  let id := tweepy.id tweet in
  let text := tweepy.text tweet in
  let link := link_prefix +:+ Py.str_int id in
  let user_id := tweepy.author_id tweet in
  match user with
  | None => Raise (AttributeError "'NoneType' object has no attribute 'data'")
  | Some user_resp =>
      match tweepy.data user_resp with
      | None => Raise (TypeError "'NoneType' object is not subscriptable")
      | Some d =>
          match d !! "username" with
          | None => Raise (KeyError "username")
          | Some user_name =>
              Ok {| id := id; text := text; link := link; user_id := user_id;
                    user_resp := user_resp; user_name := user_name;
                    time := tweepy.created_at tweet;
                    context := tweepy.referenced_tweets tweet |}
          end
      end
  end.

(** [if self.context]: [None] and the empty list are false. *)
Definition truthy {A} (c : option (list A)) : bool :=
  match c with
  | Some (_ :: _) => true
  | _ => false
  end.

Definition __str__ `{TweepyData} (self : t) : result string :=
  let string := "" in
  let string :=
    if truthy (context self)
    then (string +:+ Py.str_list repr_ReferencedTweet (default [] (context self)))
           +:+ Py.NL
    else string in
  match Py.str_add string (user_name self) with
  | Raise e => Raise e
  | Ok string =>
      let string := string +:+ " at " +:+ str_datetime (time self) +:+ ":" +:+ Py.TAB in
      let string := string +:+ text self +:+ Py.NL in
      let string := string +:+ Py.TAB +:+ link self in
      Ok string
  end.

End Tweet.

#[export] Instance Tweet_HasStr `{TweepyApi} : HasStr Tweet.t :=
  fun self => s <- lift (Tweet.__str__ self) ;; ret (VStr s).

Module Response.

Record t `{TweepyData} := {
  client : tweepy.Client;
  tweets : list Tweet.t
}.

Definition __init__ `{TweepyApi}
    (client : tweepy.Client) (response : tweepy.Response (list tweepy.Tweet))
    (make_tweets_callback :
       tweepy.Client -> tweepy.Response (list tweepy.Tweet) -> M (list Tweet.t))
  : M t :=
  tweets <- make_tweets_callback client response ;;
  ret {| client := client; tweets := tweets |}.

(** Prints each tweet; the body has no [return], so the value is [None]. *)
Definition __str__ `{TweepyApi} (self : t) : M pyval :=
  for_each (tweets self) (fun tweet => print tweet) ;;
  ret VNone.

End Response.

#[export] Instance Response_HasStr `{TweepyApi} : HasStr Response.t :=
  Response.__str__.

(** The loop of [response_cleaner], with [tweet_list] as it stands. *)
Fixpoint response_cleaner_loop `{TweepyApi}
    (client : tweepy.Client) (data : list tweepy.Tweet) (tweet_list : list Tweet.t)
  : M (list Tweet.t) :=
  match data with
  | [] => ret tweet_list
  | tweet :: data' =>
      uname <- Client.get_user client (tweepy.author_id tweet) ;;
      t <- lift (Tweet.__init__ tweet (Some uname)) ;;
      response_cleaner_loop client data' (tweet_list ++ [t])
  end.

Definition response_cleaner `{TweepyApi}
    (client : tweepy.Client) (response : tweepy.Response (list tweepy.Tweet))
  : M (list Tweet.t) :=
  let tweet_list := [] in
  match tweepy.data response with
  | None => raise (TypeError "'NoneType' object is not iterable")
  | Some data => response_cleaner_loop client data tweet_list
  end.

Module Query.

(** An attribute that has not been assigned yet is [None]. *)
Record t `{TweepyData} := {
  client : tweepy.Client;
  query : option string;
  response : option Response.t
}.

Definition __init__ `{TweepyData} (client : tweepy.Client) : t :=
  {| client := client; query := None; response := None |}.

Definition new `{TweepyApi} (self : t) (constructor_function : M string) : M t :=
  q <- constructor_function ;;
  ret {| client := client self; query := Some q; response := response self |}.

Definition run `{TweepyApi} (self : t) (kw : tweepy.kwargs) : M t :=
  match query self with
  | None => raise (AttributeError "'Query' object has no attribute 'query'")
  | Some q =>
      response <- Client.search_recent_tweets (client self) q kw ;;
      r <- Response.__init__ (client self) response response_cleaner ;;
      ret {| client := client self; query := query self; response := Some r |}
  end.

End Query.

(** The query text built from a list of stems. *)
Definition query_text (stems : list string) : string :=
  "(" +:+ Py.join " OR " (map (fun x => x +:+ "ussy") stems) +:+ ") lang:en".

Definition query_constructor `{TweepyApi} : M string :=
  let cons := ["c"; "d"; "g"; "j"; "k"; "l"; "m"; "n"; "q"; "r"; "t"; "v"; "x"; "y"; "z"] in
  let querussy := "(" +:+ Py.join " OR " (map (fun x => x +:+ "ussy") cons) +:+ ") lang:en" in
  ret querussy.

(** The five tokens, in the order they are read. *)
Record tokens := {
  tok_bearer_token : string;
  tok_consumer_secret : string;
  tok_consumer_key : string;
  tok_access_token : string;
  tok_access_token_secret : string
}.

(** The names the script reads, in the order it reads them. *)
Definition token_names : list string :=
  ["BEARER_TOKEN"; "CONSUMER_SECRET"; "CONSUMER_KEY"; "ACCESS_TOKEN"; "ACCESS_TOKEN_SECRET"].

(** [environ[name]] *)
Definition environ_getitem (environ : gmap string string) (name : string)
  : result string :=
  match environ !! name with
  | Some v => Ok v
  | None => Raise (KeyError name)
  end.

(** The body of the [try]. *)
Definition read_tokens (environ : gmap string string) : result tokens :=
  match environ_getitem environ "BEARER_TOKEN" with
  | Raise e => Raise e
  | Ok bearer_token =>
  match environ_getitem environ "CONSUMER_SECRET" with
  | Raise e => Raise e
  | Ok consumer_secret =>
  match environ_getitem environ "CONSUMER_KEY" with
  | Raise e => Raise e
  | Ok consumer_key =>
  match environ_getitem environ "ACCESS_TOKEN" with
  | Raise e => Raise e
  | Ok access_token =>
  match environ_getitem environ "ACCESS_TOKEN_SECRET" with
  | Raise e => Raise e
  | Ok access_token_secret =>
      Ok {| tok_bearer_token := bearer_token;
            tok_consumer_secret := consumer_secret;
            tok_consumer_key := consumer_key;
            tok_access_token := access_token;
            tok_access_token_secret := access_token_secret |}
  end end end end end.

Definition msg : string := "Tokens not found. Have you run `source .secrets`?".

(** [try: ... except KeyError as e: raise AttributeError(msg)] *)
Definition load_tokens (environ : gmap string string) : result tokens :=
  match read_tokens environ with
  | Raise (KeyError _) => Raise (AttributeError msg)
  | r => r
  end.

Definition tweet_fields : tweepy.kwargs :=
  [("tweet_fields", ["author_id"; "created_at"; "referenced_tweets"])].

(** The body of [if __name__ == "__main__"]. *)
Definition main `{TweepyApi} (environ : gmap string string) : M unit :=
  tk <- lift (load_tokens environ) ;;
  let client :=
    Client.__init__ (tok_bearer_token tk) (tok_consumer_key tk) (tok_consumer_secret tk)
      (tok_access_token tk) (tok_access_token_secret tk) in
  let query := Query.__init__ client in
  query <- Query.new query query_constructor ;;
  query <- Query.run query tweet_fields ;;
  match Query.response query with
  | None => raise (AttributeError "'Query' object has no attribute 'response'")
  | Some response => print response
  end.

(** ** Regular expressions, for the shape of the query text *)

Module Re.

Inductive t :=
| Eps
| Chr (c : ascii)
| Word
| Cat (r1 r2 : t)
| Star (r : t).

(** The literal text [s]. *)
Fixpoint Lit (s : string) : t :=
  match s with
  | EmptyString => Eps
  | String c s' => Cat (Chr c) (Lit s')
  end.

(** [r+] *)
Definition Plus (r : t) : t := Cat r (Star r).

(** The class [\w] on ASCII text: letters, digits and the underscore. *)
Definition is_word (c : ascii) : bool :=
  let n := nat_of_ascii c in
  ((48 <=? n) && (n <=? 57) || (65 <=? n) && (n <=? 90)
   || (97 <=? n) && (n <=? 122) || (n =? 95))%nat.

Fixpoint all_word (s : string) : bool :=
  match s with
  | EmptyString => true
  | String c s' => is_word c && all_word s'
  end.

(** [matches r s]: the whole of [s] is in the language of [r]. *)
Inductive matches : t -> string -> Prop :=
| MEps : matches Eps ""
| MChr c : matches (Chr c) (String c "")
| MWord c : is_word c = true -> matches Word (String c "")
| MCat r1 r2 s1 s2 :
    matches r1 s1 -> matches r2 s2 -> matches (Cat r1 r2) (s1 +:+ s2)
| MStar0 r : matches (Star r) ""
| MStarS r s1 s2 :
    matches r s1 -> matches (Star r) s2 -> matches (Star r) (s1 +:+ s2).

End Re.

(** One alternative of the query: [\w+ussy] *)
Definition query_term : Re.t := Re.Cat (Re.Plus Re.Word) (Re.Lit "ussy").

(** [^\(\w+ussy( OR \w+ussy)*\) lang:en$] *)
Definition query_pattern : Re.t :=
  Re.Cat (Re.Chr "(")
    (Re.Cat query_term
       (Re.Cat (Re.Star (Re.Cat (Re.Lit " OR ") query_term))
          (Re.Lit ") lang:en"))).

(** A stem the pattern accepts: one or more word characters. *)
Definition word_stem (s : string) : Prop :=
  s <> "" /\ Re.all_word s = true.

Definition golden_query : string :=
  "(cussy OR dussy OR gussy OR jussy OR kussy OR lussy OR mussy OR nussy OR qussy OR russy OR tussy OR vussy OR xussy OR yussy OR zussy) lang:en".

(** The client [main] builds from the tokens it has read. *)
Definition client_of (tk : tokens) : tweepy.Client :=
  Client.__init__ (tok_bearer_token tk) (tok_consumer_key tk) (tok_consumer_secret tk)
    (tok_access_token tk) (tok_access_token_secret tk).

(** The session [main] runs: a fresh one on which [new] stored the query. *)
Definition session_of `{TweepyData} (tk : tokens) : Query.t :=
  {| Query.client := client_of tk; Query.query := Some golden_query;
     Query.response := None |}.

(** What [join] puts after the first term. *)
Fixpoint more_terms (l : list string) : string :=
  match l with
  | [] => ""
  | y :: l' => (" OR " +:+ (y +:+ "ussy")) +:+ more_terms l'
  end.

(** ** A small instance, to run the script on

    Times are kept as their text, a referenced tweet as its id and kind.
    The service counts the requests it has answered; every search returns
    the same two tweets of one author, and one user is known. *)

Module Demo.

#[export] Instance data : TweepyData := {|
  datetime := string;
  str_datetime := fun s => s;
  ReferencedTweet := Z * string;
  repr_ReferencedTweet := fun r =>
    "<ReferencedTweet id=" +:+ Py.str_int (fst r) +:+ " type=" +:+ snd r +:+ ">"
|}.

Definition bob : tweepy.User := {[ "id" := VInt 7; "username" := VStr "bob" ]}.

Definition raw42 : tweepy.Tweet :=
  {| tweepy.id := 42; tweepy.text := "hi"; tweepy.author_id := 7;
     tweepy.created_at := "T"; tweepy.referenced_tweets := None |}.

Definition raw43 : tweepy.Tweet :=
  {| tweepy.id := 43; tweepy.text := "ho"; tweepy.author_id := 7;
     tweepy.created_at := "U"; tweepy.referenced_tweets := Some [(42%Z, "replied_to")] |}.

Definition raw44 : tweepy.Tweet :=
  {| tweepy.id := 44; tweepy.text := "hm"; tweepy.author_id := 8;
     tweepy.created_at := "V"; tweepy.referenced_tweets := Some [] |}.

#[export] Instance api : TweepyApi := {|
  remote := nat;
  api_search_recent_tweets := fun _ _ _ n =>
    (Ok {| tweepy.data := Some [raw42; raw43] |}, S n);
  api_get_user := fun _ i n =>
    (if (i =? 7)%Z then Ok {| tweepy.data := Some bob |}
     else Raise (ApiError "404 Not Found"), S n)
|}.

Definition environ : gmap string string :=
  {[ "BEARER_TOKEN" := "b"; "CONSUMER_SECRET" := "cs"; "CONSUMER_KEY" := "ck";
     "ACCESS_TOKEN" := "at"; "ACCESS_TOKEN_SECRET" := "ats"; "HOME" := "/root" ]}.

Definition client : tweepy.Client :=
  {| tweepy.bearer_token := "b"; tweepy.consumer_key := "ck";
     tweepy.consumer_secret := "cs"; tweepy.access_token := "at";
     tweepy.access_token_secret := "ats" |}.

Definition w0 : world := {| net := 0%nat; trace := [] |}.

(** The two tweets as formatted with the profile of bob, their texts, and a
    response holding them. *)
Definition post42 : Tweet.t :=
  {| Tweet.id := 42; Tweet.text := "hi";
     Tweet.link := "https://www.twitter.com/user/status/42"; Tweet.user_id := 7;
     Tweet.user_resp := {| tweepy.data := Some bob |}; Tweet.user_name := VStr "bob";
     Tweet.time := "T"; Tweet.context := None |}.

Definition post43 : Tweet.t :=
  {| Tweet.id := 43; Tweet.text := "ho";
     Tweet.link := "https://www.twitter.com/user/status/43"; Tweet.user_id := 7;
     Tweet.user_resp := {| tweepy.data := Some bob |}; Tweet.user_name := VStr "bob";
     Tweet.time := "U"; Tweet.context := Some [(42%Z, "replied_to")] |}.

Definition text42 : string :=
  "bob at T:" +:+ Py.TAB +:+ "hi" +:+ Py.NL
  +:+ Py.TAB +:+ "https://www.twitter.com/user/status/42".

Definition text43 : string :=
  "[<ReferencedTweet id=42 type=replied_to>]" +:+ Py.NL
  +:+ "bob at U:" +:+ Py.TAB +:+ "ho" +:+ Py.NL
  +:+ Py.TAB +:+ "https://www.twitter.com/user/status/43".

Definition held : Response.t :=
  {| Response.client := client; Response.tweets := [post42; post43] |}.

(** A session on which [new] has been called. *)
Definition session : Query.t :=
  {| Query.client := client; Query.query := Some "(bussy) lang:en";
     Query.response := None |}.

(** More profiles: one without a username, one whose username is a number. *)
Definition nameless : tweepy.User := {[ "id" := VInt 8 ]}.

Definition numbered : tweepy.User := {[ "id" := VInt 10; "username" := VInt 10 ]}.

Definition raw45 : tweepy.Tweet :=
  {| tweepy.id := 45; tweepy.text := "hey"; tweepy.author_id := 9;
     tweepy.created_at := "W"; tweepy.referenced_tweets := None |}.

Definition raw46 : tweepy.Tweet :=
  {| tweepy.id := 46; tweepy.text := "yo"; tweepy.author_id := 10;
     tweepy.created_at := "X"; tweepy.referenced_tweets := None |}.

Definition post46 : Tweet.t :=
  {| Tweet.id := 46; Tweet.text := "yo";
     Tweet.link := "https://www.twitter.com/user/status/46"; Tweet.user_id := 10;
     Tweet.user_resp := {| tweepy.data := Some numbered |}; Tweet.user_name := VInt 10;
     Tweet.time := "X"; Tweet.context := None |}.

(** A service whose search answers with the given data; user 7 is bob, user
    8 has no username, user 9 is not found, user 10 has a number for a name,
    and any other lookup fails. *)
Definition service (found : option (list tweepy.Tweet)) : TweepyApi := {|
  remote := nat;
  api_search_recent_tweets := fun _ _ _ n => (Ok {| tweepy.data := found |}, S n);
  api_get_user := fun _ i n =>
    (if (i =? 7)%Z then Ok {| tweepy.data := Some bob |}
     else if (i =? 8)%Z then Ok {| tweepy.data := Some nameless |}
     else if (i =? 9)%Z then Ok {| tweepy.data := None |}
     else if (i =? 10)%Z then Ok {| tweepy.data := Some numbered |}
     else Raise (ApiError "404 Not Found"), S n)
|}.


End Demo.

(** * Properties *)

(** ** Strings *)

Lemma str_app_assoc (s1 s2 s3 : string) :
  (s1 +:+ s2) +:+ s3 = s1 +:+ (s2 +:+ s3).
Proof.
  induction s1 as [|c s1 IH]; [reflexivity|].
  change (String c ((s1 +:+ s2) +:+ s3) = String c (s1 +:+ (s2 +:+ s3))).
  now f_equal.
Qed.

Lemma str_app_nil_r (s : string) : s +:+ "" = s.
Proof.
  induction s as [|c s IH]; [reflexivity|].
  change (String c (s +:+ "") = String c s). now f_equal.
Qed.

(** [str] of an integer can be read back, so it loses nothing. *)
Lemma str_int_inj (n m : Z) : Py.str_int n = Py.str_int m -> n = m.
Proof.
  unfold Py.str_int. intros E.
  assert (R : forall z, NilZero.int_of_string (NilZero.string_of_int (Z.to_int z))
                        = Some (Z.to_int z)).
  { intros z. apply NilZero.isi; destruct z; simpl; try discriminate;
      intros [= E']; exact (Unsigned.to_uint_nonnil _ E'). }
  apply DecimalZ.to_int_inj.
  pose proof (R n) as Rn. rewrite E, R in Rn. congruence.
Qed.

(** ** The query text matches its pattern *)

Section QueryPattern.

Import Re.

Lemma matches_Lit (s : string) : matches (Lit s) s.
Proof.
  induction s as [|c s IH]; simpl.
  - constructor.
  - change (String c s) with (String c "" +:+ s). constructor; [constructor | exact IH].
Qed.

Lemma matches_Star_word (s : string) :
  all_word s = true -> matches (Star Word) s.
Proof.
  induction s as [|c s IH]; simpl; intros Hs.
  - constructor.
  - apply andb_prop in Hs as [Hc Hs].
    change (String c s) with (String c "" +:+ s).
    apply MStarS; [now constructor | auto].
Qed.

Lemma matches_Plus_word (s : string) :
  word_stem s -> matches (Plus Word) s.
Proof.
  intros [Hne Hs]. destruct s as [|c s]; [congruence|].
  simpl in Hs. apply andb_prop in Hs as [Hc Hs].
  change (String c s) with (String c "" +:+ s).
  apply MCat; [now constructor | now apply matches_Star_word].
Qed.

Lemma matches_term (x : string) :
  word_stem x -> matches query_term (x +:+ "ussy").
Proof.
  intros Hx. apply MCat; [now apply matches_Plus_word | apply matches_Lit].
Qed.

Lemma join_terms (x : string) (l : list string) :
  Py.join " OR " (map (fun x => x +:+ "ussy") (x :: l))
  = (x +:+ "ussy") +:+ more_terms l.
Proof.
  revert x. induction l as [|y l IH]; intros x.
  - simpl. now rewrite str_app_nil_r.
  - change (Py.join " OR " (map (fun x => x +:+ "ussy") (x :: y :: l)))
      with ((x +:+ "ussy") +:+ " OR "
            +:+ Py.join " OR " (map (fun x => x +:+ "ussy") (y :: l))).
    rewrite IH. cbn [more_terms]. now rewrite !str_app_assoc.
Qed.

Lemma matches_more_terms (l : list string) :
  Forall word_stem l ->
  matches (Star (Cat (Lit " OR ") query_term)) (more_terms l).
Proof.
  induction 1 as [|y l Hy Hl IH]; cbn [more_terms].
  - constructor.
  - apply MStarS; [|exact IH].
    apply MCat; [apply matches_Lit | now apply matches_term].
Qed.

(** Every non-empty list of word stems gives a text of the pattern. *)
Lemma query_text_matches (stems : list string) :
  stems <> [] -> Forall word_stem stems ->
  matches query_pattern (query_text stems).
Proof.
  intros Hne Hall. destruct stems as [|x l]; [congruence|].
  inversion Hall as [|? ? Hx Hl]; subst.
  unfold query_text. rewrite join_terms.
  change "(" with (String "(" "").
  rewrite !str_app_assoc.
  change (String "(" "" +:+ ?s) with (String "(" "" +:+ s).
  apply (MCat (Chr "(")); [constructor|].
  rewrite <- str_app_assoc.
  apply (MCat query_term); [now apply matches_term|].
  apply MCat; [now apply matches_more_terms | apply (matches_Lit ") lang:en")].
Qed.

End QueryPattern.

(** ** The query builder *)

(** C1: [query_constructor] is pure and deterministic: in every world it
    returns the same text and leaves the world as it was.  The text is the
    stems of the embedded list, each followed by [ussy], joined by [ OR ] in
    list order, in parentheses, followed by [ lang:en]; it is the expected
    fifteen-term query and it matches
    [^\(\w+ussy( OR \w+ussy)*\) lang:en$]. *)
Theorem C1_query_constructor `{TweepyApi} :
  (forall w : world, query_constructor w = (Ok golden_query, w))
  /\ golden_query
     = query_text ["c"; "d"; "g"; "j"; "k"; "l"; "m"; "n"; "q"; "r"; "t"; "v"; "x"; "y"; "z"]
  /\ Re.matches query_pattern golden_query.
Proof.
  assert (E : golden_query
              = query_text ["c"; "d"; "g"; "j"; "k"; "l"; "m"; "n"; "q"; "r"; "t";
                            "v"; "x"; "y"; "z"]) by reflexivity.
  split; [intros w; reflexivity | split; [exact E|]].
  rewrite E. apply query_text_matches; [discriminate|].
  repeat constructor; discriminate.
Qed.

Example query_text_ab : query_text ["a"; "b"] = "(aussy OR bussy) lang:en".
Proof. reflexivity. Qed.

(** ** The credential loader *)

Lemma environ_getitem_Some environ name v :
  environ !! name = Some v -> environ_getitem environ name = Ok v.
Proof. unfold environ_getitem. now intros ->. Qed.

(** A missing name makes the [try] body stop on a [KeyError]. *)
Lemma read_tokens_missing (environ : gmap string string) (name : string) :
  In name token_names -> environ !! name = None ->
  exists k, read_tokens environ = Raise (KeyError k).
Proof.
  intros Hin Hnone. unfold read_tokens, environ_getitem.
  repeat lazymatch goal with
         | |- context [?m !! ?k] =>
             destruct (m !! k) eqn:?; [|eexists; reflexivity]
         end.
  exfalso. simpl in Hin.
  repeat (destruct Hin as [<- | Hin]; [congruence|]). exact Hin.
Qed.

(** C2: when the five variables are set, loading succeeds with exactly
    their values; when one of them is missing, loading fails with the
    configuration error whose message points at [source .secrets], and the
    whole program stops there with the world untouched: nothing was sent
    and nothing printed. *)
Theorem C2_credential_loading `{TweepyApi} (environ : gmap string string) :
  (forall b cs ck a s,
      environ !! "BEARER_TOKEN" = Some b ->
      environ !! "CONSUMER_SECRET" = Some cs ->
      environ !! "CONSUMER_KEY" = Some ck ->
      environ !! "ACCESS_TOKEN" = Some a ->
      environ !! "ACCESS_TOKEN_SECRET" = Some s ->
      load_tokens environ
      = Ok {| tok_bearer_token := b; tok_consumer_secret := cs;
              tok_consumer_key := ck; tok_access_token := a;
              tok_access_token_secret := s |})
  /\ (forall name,
         In name token_names -> environ !! name = None ->
         load_tokens environ
         = Raise (AttributeError "Tokens not found. Have you run `source .secrets`?")
         /\ forall w : world,
             main environ w
             = (Raise (AttributeError "Tokens not found. Have you run `source .secrets`?"), w)).
Proof.
  split.
  - intros b cs ck a s Hb Hcs Hck Ha Hs. unfold load_tokens, read_tokens.
    now rewrite (environ_getitem_Some _ _ _ Hb), (environ_getitem_Some _ _ _ Hcs),
      (environ_getitem_Some _ _ _ Hck), (environ_getitem_Some _ _ _ Ha),
      (environ_getitem_Some _ _ _ Hs).
  - intros name Hin Hnone.
    destruct (read_tokens_missing environ name Hin Hnone) as [k Hk].
    assert (E : load_tokens environ = Raise (AttributeError msg))
      by (unfold load_tokens; now rewrite Hk).
    split; [exact E|].
    intros w. unfold main, bind, lift. now rewrite E.
Qed.

Lemma C2_credential_loading_witness :
  load_tokens Demo.environ
  = Ok {| tok_bearer_token := "b"; tok_consumer_secret := "cs";
          tok_consumer_key := "ck"; tok_access_token := "at";
          tok_access_token_secret := "ats" |}
  /\ (load_tokens (delete "CONSUMER_KEY" Demo.environ)
      = Raise (AttributeError "Tokens not found. Have you run `source .secrets`?")
      /\ main (delete "CONSUMER_KEY" Demo.environ) Demo.w0
         = (Raise (AttributeError "Tokens not found. Have you run `source .secrets`?"),
            Demo.w0)).
Proof.
  split.
  - apply (proj1 (@C2_credential_loading Demo.data Demo.api Demo.environ));
      vm_compute; reflexivity.
  - destruct (proj2 (@C2_credential_loading Demo.data Demo.api
                       (delete "CONSUMER_KEY" Demo.environ)) "CONSUMER_KEY")
      as [Hload Hmain].
    + simpl; tauto.
    + vm_compute; reflexivity.
    + split; [exact Hload | exact (Hmain Demo.w0)].
Defined.

(** ** The formatter *)

(** The constructor copies the fields of the raw tweet and derives the
    permalink. *)
Lemma Tweet_init_fields `{TweepyData} tweet user (p : Tweet.t) :
  Tweet.__init__ tweet user = Ok p ->
  Tweet.id p = tweepy.id tweet
  /\ Tweet.text p = tweepy.text tweet
  /\ Tweet.link p = Tweet.link_prefix +:+ Py.str_int (tweepy.id tweet)
  /\ Tweet.user_id p = tweepy.author_id tweet
  /\ Tweet.time p = tweepy.created_at tweet
  /\ Tweet.context p = tweepy.referenced_tweets tweet
  /\ exists u d, user = Some u /\ Tweet.user_resp p = u /\ tweepy.data u = Some d
                 /\ d !! "username" = Some (Tweet.user_name p).
Proof.
  unfold Tweet.__init__. intros E.
  destruct user as [u|]; [|discriminate].
  destruct (tweepy.data u) as [d|] eqn:Hd; [|discriminate].
  destruct (d !! "username") as [n|] eqn:Hn; [|discriminate].
  injection E as <-. simpl. repeat split; eauto 10.
Qed.

(** C3: a raw tweet with no referenced context ([None] or the empty list),
    resolved to a profile whose username is [u], is rendered with no context
    line, as [u at <timestamp>:<TAB><text>], a newline, and the permalink
    behind a tab.  For the tweet 42 of the end-to-end scenario and the
    profile of bob the text is
    [bob at T:<TAB>hi<NL><TAB>https://www.twitter.com/user/status/42]. *)
Theorem C3_render_without_context `{TweepyData} :
  (forall (tweet : tweepy.Tweet) (user : tweepy.Response tweepy.User)
          (d : tweepy.User) (u : string),
      tweepy.referenced_tweets tweet = None \/ tweepy.referenced_tweets tweet = Some [] ->
      tweepy.data user = Some d ->
      d !! "username" = Some (VStr u) ->
      exists p,
        Tweet.__init__ tweet (Some user) = Ok p
        /\ Tweet.__str__ p
           = Ok (u +:+ " at " +:+ str_datetime (tweepy.created_at tweet) +:+ ":" +:+ Py.TAB
                 +:+ tweepy.text tweet +:+ Py.NL
                 +:+ Py.TAB +:+ "https://www.twitter.com/user/status/"
                 +:+ Py.str_int (tweepy.id tweet)))
  /\ (forall T : datetime,
        exists p,
          Tweet.__init__
            {| tweepy.id := 42; tweepy.text := "hi"; tweepy.author_id := 7;
               tweepy.created_at := T; tweepy.referenced_tweets := None |}
            (Some {| tweepy.data := Some {[ "id" := VInt 7; "username" := VStr "bob" ]} |})
          = Ok p
          /\ Tweet.__str__ p
             = Ok ("bob at " +:+ str_datetime T +:+ ":" +:+ Py.TAB +:+ "hi" +:+ Py.NL
                   +:+ Py.TAB +:+ "https://www.twitter.com/user/status/42")).
Proof.
  assert (G : forall (tweet : tweepy.Tweet) (user : tweepy.Response tweepy.User)
                     (d : tweepy.User) (u : string),
             tweepy.referenced_tweets tweet = None
             \/ tweepy.referenced_tweets tweet = Some [] ->
             tweepy.data user = Some d ->
             d !! "username" = Some (VStr u) ->
             exists p,
               Tweet.__init__ tweet (Some user) = Ok p
               /\ Tweet.__str__ p
                  = Ok (u +:+ " at " +:+ str_datetime (tweepy.created_at tweet) +:+ ":"
                        +:+ Py.TAB +:+ tweepy.text tweet +:+ Py.NL
                        +:+ Py.TAB +:+ "https://www.twitter.com/user/status/"
                        +:+ Py.str_int (tweepy.id tweet))).
  { intros tweet user d u Hctx Hd Hu.
    unfold Tweet.__init__. rewrite Hd, Hu. eexists. split; [reflexivity|].
    unfold Tweet.__str__. cbn [Tweet.context Tweet.user_name Tweet.time Tweet.text
                                 Tweet.link].
    replace (Tweet.truthy (tweepy.referenced_tweets tweet)) with false
      by (destruct Hctx as [-> | ->]; reflexivity).
    cbn [Py.str_add]. unfold Tweet.link_prefix.
    f_equal. change ("" +:+ u) with u. now rewrite !str_app_assoc. }
  split; [exact G|].
  intros T.
  destruct (G {| tweepy.id := 42; tweepy.text := "hi"; tweepy.author_id := 7;
                 tweepy.created_at := T; tweepy.referenced_tweets := None |}
              {| tweepy.data := Some {[ "id" := VInt 7; "username" := VStr "bob" ]} |}
              {[ "id" := VInt 7; "username" := VStr "bob" ]} "bob")
    as [p [Hp Hs]]; [now left | reflexivity | reflexivity |].
  exists p. split; [exact Hp|]. rewrite Hs. reflexivity.
Qed.

Lemma C3_render_without_context_witness :
  exists p,
    @Tweet.__init__ Demo.data Demo.raw42 (Some {| tweepy.data := Some Demo.bob |}) = Ok p
    /\ @Tweet.__str__ Demo.data p
       = Ok ("bob at T:" +:+ Py.TAB +:+ "hi" +:+ Py.NL +:+ Py.TAB
             +:+ "https://www.twitter.com/user/status/42").
Proof.
  apply (proj1 (@C3_render_without_context Demo.data) Demo.raw42
           {| tweepy.data := Some Demo.bob |} Demo.bob "bob").
  - left; reflexivity.
  - reflexivity.
  - vm_compute; reflexivity.
Defined.

(** ** Permalinks *)

(** The permalink of a raw tweet, as the constructor derives it. *)
Lemma Tweet_link_of_id `{TweepyData} tweet user (p : Tweet.t) :
  Tweet.__init__ tweet user = Ok p ->
  Tweet.link p = "https://www.twitter.com/user/status/" +:+ Py.str_int (tweepy.id tweet).
Proof. intros E. now destruct (Tweet_init_fields _ _ _ E) as (_ & _ & -> & _). Qed.

(** C4: the permalink is a function of the id alone, and an injective one:
    two formatted tweets have the same permalink exactly when the raw tweets
    they were built from have the same id. *)
Theorem C4_permalink_injective `{TweepyData}
    (tweet1 tweet2 : tweepy.Tweet) (user1 user2 : option (tweepy.Response tweepy.User))
    (p1 p2 : Tweet.t) :
  Tweet.__init__ tweet1 user1 = Ok p1 ->
  Tweet.__init__ tweet2 user2 = Ok p2 ->
  Tweet.link p1 = "https://www.twitter.com/user/status/" +:+ Py.str_int (tweepy.id tweet1)
  /\ (tweepy.id tweet1 = tweepy.id tweet2 -> Tweet.link p1 = Tweet.link p2)
  /\ (tweepy.id tweet1 <> tweepy.id tweet2 -> Tweet.link p1 <> Tweet.link p2).
Proof.
  intros E1 E2.
  rewrite (Tweet_link_of_id _ _ _ E1), (Tweet_link_of_id _ _ _ E2).
  split; [reflexivity|]. split.
  - now intros ->.
  - intros Hne Heq. apply Hne, str_int_inj.
    now apply (String.app_inj "https://www.twitter.com/user/status/") in Heq.
Qed.

Lemma C4_permalink_injective_witness :
  Tweet.link_prefix +:+ "42" = "https://www.twitter.com/user/status/42"
  /\ (42%Z = 43%Z -> Tweet.link_prefix +:+ "42" = Tweet.link_prefix +:+ "43")
  /\ (42%Z <> 43%Z -> Tweet.link_prefix +:+ "42" <> Tweet.link_prefix +:+ "43").
Proof.
  exact (@C4_permalink_injective Demo.data Demo.raw42 Demo.raw43
           (Some {| tweepy.data := Some Demo.bob |})
           (Some {| tweepy.data := Some Demo.bob |})
           _ _ eq_refl eq_refl).
Defined.

(** ** The constructor needs a user *)

(** C9: [Tweet(tweet)] with [user] left at its default [None] fails on
    [user.data], whatever the tweet; the constructor succeeds exactly when
    [user] is a response whose [data] has a [username] entry. *)
Theorem C9_user_is_required `{TweepyData} (tweet : tweepy.Tweet) :
  Tweet.__init__ tweet None
  = Raise (AttributeError "'NoneType' object has no attribute 'data'")
  /\ forall user : option (tweepy.Response tweepy.User),
      is_ok (Tweet.__init__ tweet user) = true
      <-> exists u d, user = Some u /\ tweepy.data u = Some d
                      /\ is_Some (d !! "username").
Proof.
  split; [reflexivity|]. intros user. split.
  - destruct (Tweet.__init__ tweet user) as [p|e] eqn:E; [|discriminate].
    intros _. destruct (Tweet_init_fields _ _ _ E) as (_ & _ & _ & _ & _ & _ & u & d & Hu).
    exists u, d. destruct Hu as (-> & _ & Hd & Hn). eauto.
  - intros (u & d & -> & Hd & [n Hn]). unfold Tweet.__init__. now rewrite Hd, Hn.
Qed.

Lemma C9_user_is_required_witness :
  @Tweet.__init__ Demo.data Demo.raw42 None
  = Raise (AttributeError "'NoneType' object has no attribute 'data'")
  /\ is_ok (@Tweet.__init__ Demo.data Demo.raw42 (Some {| tweepy.data := Some Demo.bob |}))
     = true
  /\ is_ok (@Tweet.__init__ Demo.data Demo.raw42
              (Some {| tweepy.data := Some (delete "username" Demo.bob) |}))
     <> true.
Proof.
  destruct (@C9_user_is_required Demo.data Demo.raw42) as [Hnone Hiff].
  split; [exact Hnone|]. split.
  - apply Hiff. exists {| tweepy.data := Some Demo.bob |}, Demo.bob.
    repeat split. exists (VStr "bob"). vm_compute; reflexivity.
  - intros Hok. apply Hiff in Hok as (u & d & [= <-] & [= <-] & [n Hn]).
    vm_compute in Hn. discriminate.
Defined.

(** ** The response cleaner *)

Lemma get_user_run `{TweepyApi} client id (w : world) :
  Client.get_user client id w
  = (fst (api_get_user client id (net w)),
     {| net := snd (api_get_user client id (net w));
        trace := trace w ++ [GetUser client id] |}).
Proof. unfold Client.get_user. now destruct (api_get_user client id (net w)). Qed.

(** One turn of the loop. *)
Lemma response_cleaner_loop_cons `{TweepyApi} client tweet data tweet_list (w : world) :
  response_cleaner_loop client (tweet :: data) tweet_list w
  = let w1 := {| net := snd (api_get_user client (tweepy.author_id tweet) (net w));
                 trace := trace w ++ [GetUser client (tweepy.author_id tweet)] |} in
    match fst (api_get_user client (tweepy.author_id tweet) (net w)) with
    | Raise e => (Raise e, w1)
    | Ok uname =>
        match Tweet.__init__ tweet (Some uname) with
        | Raise e => (Raise e, w1)
        | Ok t => response_cleaner_loop client data (tweet_list ++ [t]) w1
        end
    end.
Proof.
  cbn [response_cleaner_loop]. unfold bind at 1. rewrite get_user_run.
  destruct (fst (api_get_user client (tweepy.author_id tweet) (net w))); [|reflexivity].
  unfold bind, lift. now destruct (Tweet.__init__ tweet _).
Qed.

(** The calls the loop makes are the lookups of a prefix of the batch, in
    order; when it returns it has gone through the whole batch and appended
    one formatted tweet per raw tweet. *)
Lemma response_cleaner_loop_spec `{TweepyApi} client (data : list tweepy.Tweet) :
  forall (tweet_list : list Tweet.t) (w : world),
  exists k, k <= length data
    /\ trace (snd (response_cleaner_loop client data tweet_list w))
       = (trace w ++ map (fun t => GetUser client (tweepy.author_id t)) (firstn k data))%list
    /\ forall tweets, fst (response_cleaner_loop client data tweet_list w) = Ok tweets ->
         k = length data
         /\ exists new, tweets = (tweet_list ++ new)%list
              /\ Forall2 (fun p t => exists u, Tweet.__init__ t (Some u) = Ok p) new data.
Proof.
  induction data as [|tweet data IH]; intros tweet_list w.
  - exists 0. split; [reflexivity|]. split; [symmetry; apply app_nil_r|].
    intros tweets [= <-]. split; [reflexivity|].
    exists []. split; [symmetry; apply app_nil_r | constructor].
  - rewrite response_cleaner_loop_cons. cbv zeta.
    destruct (fst (api_get_user client (tweepy.author_id tweet) (net w))) as [uname|e].
    + destruct (Tweet.__init__ tweet (Some uname)) as [t|e] eqn:Ht.
      * match goal with |- context [response_cleaner_loop _ _ ?l ?w1] =>
          destruct (IH l w1) as (k & Hk & Htr & Hok) end.
        exists (S k). split; [simpl; lia|]. split.
        -- rewrite Htr. cbn [trace firstn map]. now rewrite <- app_assoc.
        -- intros tweets Hres. destruct (Hok _ Hres) as (-> & new & -> & Hnew).
           split; [reflexivity|]. exists (t :: new).
           split; [now rewrite <- app_assoc|]. constructor; eauto.
      * exists 1. split; [simpl; lia|]. split; [reflexivity | discriminate].
    + exists 1. split; [simpl; lia|]. split; [reflexivity | discriminate].
Qed.

Lemma response_cleaner_data `{TweepyApi} client response batch (w : world) :
  tweepy.data response = Some batch ->
  response_cleaner client response w = response_cleaner_loop client batch [] w.
Proof. unfold response_cleaner. now intros ->. Qed.




(** ** Running a query *)

Lemma search_recent_tweets_run `{TweepyApi} client q kw (w : world) :
  Client.search_recent_tweets client q kw w
  = (fst (api_search_recent_tweets client q kw (net w)),
     {| net := snd (api_search_recent_tweets client q kw (net w));
        trace := trace w ++ [SearchRecentTweets client q kw] |}).
Proof.
  unfold Client.search_recent_tweets.
  now destruct (api_search_recent_tweets client q kw (net w)).
Qed.

(** [run] on a session that holds a query: the search, then the cleaner on
    what it returned. *)
Lemma run_with_query `{TweepyApi} (self : Query.t) q kw (w : world) :
  Query.query self = Some q ->
  Query.run self kw w
  = let w1 := {| net := snd (api_search_recent_tweets (Query.client self) q kw (net w));
                 trace := trace w ++ [SearchRecentTweets (Query.client self) q kw] |} in
    match fst (api_search_recent_tweets (Query.client self) q kw (net w)) with
    | Raise e => (Raise e, w1)
    | Ok response =>
        match response_cleaner (Query.client self) response w1 with
        | (Raise e, w2) => (Raise e, w2)
        | (Ok tweets, w2) =>
            (Ok {| Query.client := Query.client self; Query.query := Some q;
                   Query.response :=
                     Some {| Response.client := Query.client self;
                             Response.tweets := tweets |} |}, w2)
        end
    end.
Proof.
  intros Hq. unfold Query.run. rewrite Hq. unfold bind at 1.
  rewrite search_recent_tweets_run. cbv zeta.
  destruct (fst (api_search_recent_tweets _ _ _ _)) as [response|e]; [|reflexivity].
  unfold Response.__init__, bind, ret.
  now destruct (response_cleaner _ _ _) as [[tweets|e] w2].
Qed.


(** What a successful [run] went through. *)
Lemma run_Ok `{TweepyApi} (self self' : Query.t) kw (w w' : world) :
  Query.run self kw w = (Ok self', w') ->
  exists q response batch tweets,
    Query.query self = Some q
    /\ fst (api_search_recent_tweets (Query.client self) q kw (net w)) = Ok response
    /\ tweepy.data response = Some batch
    /\ response_cleaner (Query.client self) response
         {| net := snd (api_search_recent_tweets (Query.client self) q kw (net w));
            trace := trace w ++ [SearchRecentTweets (Query.client self) q kw] |}
       = (Ok tweets, w')
    /\ self' = {| Query.client := Query.client self; Query.query := Some q;
                  Query.response :=
                    Some {| Response.client := Query.client self;
                            Response.tweets := tweets |} |}.
Proof.
  intros Hrun. destruct (Query.query self) as [q|] eqn:Hq.
  - rewrite (run_with_query _ _ _ _ Hq) in Hrun. cbv zeta in Hrun.
    destruct (fst (api_search_recent_tweets _ _ _ _)) as [response|e] eqn:Hsearch;
      [|discriminate].
    destruct (response_cleaner _ _ _) as [[tweets|e] w2] eqn:Hclean; [|discriminate].
    injection Hrun as <- <-.
    destruct (tweepy.data response) as [batch|] eqn:Hdata.
    + exists q, response, batch, tweets. auto.
    + unfold response_cleaner in Hclean. rewrite Hdata in Hclean. discriminate.
  - unfold Query.run in Hrun. rewrite Hq in Hrun. discriminate.
Qed.

(** What the cleaner returns was built from the batch, one formatted tweet
    per raw tweet, each with the user looked up for it. *)
Lemma response_cleaner_Ok `{TweepyApi} client response batch tweets (w w' : world) :
  tweepy.data response = Some batch ->
  response_cleaner client response w = (Ok tweets, w') ->
  Forall2 (fun p t => exists u, Tweet.__init__ t (Some u) = Ok p) tweets batch.
Proof.
  intros Hdata Hclean. rewrite (response_cleaner_data _ _ _ _ Hdata) in Hclean.
  destruct (response_cleaner_loop_spec client batch [] w) as (k & _ & _ & Hok).
  rewrite Hclean in Hok. destruct (Hok tweets eq_refl) as (_ & new & -> & Hnew).
  exact Hnew.
Qed.

(** ** The author of a formatted tweet *)

(** C5: a formatted tweet carries the [author_id] of the raw tweet it was
    built from, and after every run that returns, the tweets the session
    holds stand one to one, in order, against the raw tweets of the batch
    the search returned, each with the [author_id] of its raw tweet. *)
Theorem C5_author_id_preserved `{TweepyApi} :
  (forall tweet user (p : Tweet.t),
      Tweet.__init__ tweet user = Ok p -> Tweet.user_id p = tweepy.author_id tweet)
  /\ (forall (self self' : Query.t) kw (w w' : world),
         Query.run self kw w = (Ok self', w') ->
         exists q response batch r,
           Query.query self = Some q
           /\ fst (api_search_recent_tweets (Query.client self) q kw (net w)) = Ok response
           /\ tweepy.data response = Some batch
           /\ Query.response self' = Some r
           /\ Forall2 (fun p t => Tweet.user_id p = tweepy.author_id t)
                (Response.tweets r) batch).
Proof.
  split.
  - intros tweet user p E. now destruct (Tweet_init_fields _ _ _ E) as (_ & _ & _ & -> & _).
  - intros self self' kw w w' Hrun.
    destruct (run_Ok _ _ _ _ _ Hrun) as (q & response & batch & tweets & Hq & Hs & Hd & Hc & ->).
    exists q, response, batch, {| Response.client := Query.client self;
                                  Response.tweets := tweets |}.
    repeat split; auto. cbn [Response.tweets].
    eapply Forall2_impl; [exact (response_cleaner_Ok _ _ _ _ _ _ Hd Hc)|].
    intros p t [u E]. now destruct (Tweet_init_fields _ _ _ E) as (_ & _ & _ & -> & _).
Qed.

Lemma C5_author_id_preserved_witness :
  exists self' w',
    @Query.run Demo.data Demo.api Demo.session tweet_fields Demo.w0 = (Ok self', w')
    /\ exists r, Query.response self' = Some r
         /\ Forall2 (fun p t => Tweet.user_id p = tweepy.author_id t)
              (Response.tweets r) [Demo.raw42; Demo.raw43].
Proof.
  destruct (@Query.run Demo.data Demo.api Demo.session tweet_fields Demo.w0)
    as [[self'|e] w'] eqn:E; [|vm_compute in E; discriminate].
  exists self', w'. split; [reflexivity|].
  destruct (proj2 (@C5_author_id_preserved Demo.data Demo.api) _ _ _ _ _ E)
    as (q & response & batch & r & Hq & Hs & Hd & Hr & Hall).
  injection Hq as <-. injection Hs as <-. injection Hd as <-.
  exists r. split; [exact Hr | exact Hall].
Defined.

(** ** [run] needs [new] *)



(** ** Printing *)

Lemma print_tweet `{TweepyApi} (t : Tweet.t) s (w : world) :
  Tweet.__str__ t = Ok s ->
  print t w = (Ok tt, {| net := net w; trace := trace w ++ [Print s] |}).
Proof.
  intros Hs. unfold print, str, dunder_str, Tweet_HasStr, bind, lift, ret, emit.
  now rewrite Hs.
Qed.

(** The loop of [Response.__str__] on tweets that all have a text. *)
Lemma for_each_print `{TweepyApi} (tweets : list Tweet.t) (strs : list string) :
  Forall2 (fun t s => Tweet.__str__ t = Ok s) tweets strs ->
  forall w : world,
    for_each tweets (fun tweet => print tweet) w
    = (Ok tt, {| net := net w; trace := trace w ++ map Print strs |}).
Proof.
  induction 1 as [|t s tweets strs Hs _ IH]; intros w.
  - simpl. unfold ret. rewrite app_nil_r. now destruct w.
  - cbn [for_each]. unfold bind. rewrite (print_tweet _ _ _ Hs), IH.
    cbn [net trace map]. now rewrite <- app_assoc.
Qed.

(** The protocol method of a response never hands back a [str]. *)
Lemma Response_str_value `{TweepyApi} (r : Response.t) (w w' : world) v :
  Response.__str__ r w = (Ok v, w') -> v = VNone.
Proof.
  unfold Response.__str__, bind, ret.
  destruct (for_each _ _ w) as [[[]|e] w1]; now intros [= <- <-].
Qed.

(** Printing a response always raises, and leaves the world where
    [Response.__str__] left it. *)
Lemma print_response `{TweepyApi} (r : Response.t) (w : world) :
  is_ok (fst (print r w)) = false
  /\ snd (print r w) = snd (Response.__str__ r w).
Proof.
  unfold print, str, dunder_str, Response_HasStr, bind.
  destruct (Response.__str__ r w) as [[v|e] w1] eqn:E; [|now split].
  rewrite (Response_str_value _ _ _ _ E). now split.
Qed.

(** What [main] comes to once the tokens are there. *)
Lemma main_with_tokens `{TweepyApi} environ tk (w : world) :
  load_tokens environ = Ok tk ->
  main environ w
  = let client :=
      Client.__init__ (tok_bearer_token tk) (tok_consumer_key tk)
        (tok_consumer_secret tk) (tok_access_token tk) (tok_access_token_secret tk) in
    match Query.run {| Query.client := client; Query.query := Some golden_query;
                       Query.response := None |} tweet_fields w with
    | (Raise e, w1) => (Raise e, w1)
    | (Ok query, w1) =>
        match Query.response query with
        | None => (Raise (AttributeError "'Query' object has no attribute 'response'"), w1)
        | Some response => print response w1
        end
    end.
Proof.
  intros Htk. unfold main, bind at 1, lift at 1. rewrite Htk. cbv zeta.
  unfold bind at 1. unfold Query.new at 1, bind at 1.
  change (query_constructor w) with (Ok golden_query, w). cbv iota beta.
  unfold ret at 1. cbv iota beta. unfold bind at 1.
  change (Query.client (Query.__init__ ?c)) with c.
  change (Query.response (Query.__init__ ?c)) with (@None Response.t).
  destruct (Query.run _ _ w) as [[query|e] w1]; [|reflexivity].
  now destruct (Query.response query).
Qed.

(** C7: rendering a response prints the text of each of its tweets, in the
    order of the batch, and does nothing else: the remote service is left as
    it was and the trace grows by these prints alone.  The last step of the
    program is the print of the response the session holds after the run:
    from the world the run left, [main] goes on exactly as that print does. *)
Theorem C7_rendering_prints_batch `{TweepyApi} :
  (forall (r : Response.t) (strs : list string) (w : world),
      Forall2 (fun t s => Tweet.__str__ t = Ok s) (Response.tweets r) strs ->
      Response.__str__ r w
      = (Ok VNone, {| net := net w; trace := trace w ++ map Print strs |}))
  /\ (forall environ tk (session : Query.t) (w w1 : world),
         load_tokens environ = Ok tk ->
         Query.run
           {| Query.client :=
                Client.__init__ (tok_bearer_token tk) (tok_consumer_key tk)
                  (tok_consumer_secret tk) (tok_access_token tk)
                  (tok_access_token_secret tk);
              Query.query := Some golden_query; Query.response := None |}
           tweet_fields w
         = (Ok session, w1) ->
         exists r, Query.response session = Some r
                   /\ main environ w = print r w1
                   /\ snd (main environ w) = snd (Response.__str__ r w1)).
Proof.
  split.
  - intros r strs w Hall. unfold Response.__str__, bind.
    now rewrite (for_each_print _ _ Hall).
  - intros environ tk session w w1 Htk Hrun.
    rewrite (main_with_tokens _ _ _ Htk). cbv zeta. rewrite Hrun.
    destruct (run_Ok _ _ _ _ _ Hrun) as (q & response & batch & tweets & _ & _ & _ & _ & ->).
    eexists. split; [reflexivity|]. split; [reflexivity|].
    cbn [Query.response]. apply print_response.
Qed.

(** C8: [Response.__str__] never returns a string: whenever it returns, the
    value is [None].  So printing a response prints its tweets and then
    raises the type error of a [__str__] that returned a non-string.  For
    the program: in every run in which the tokens load and the query run
    returns, the final [print] of the response the session holds first
    prints the text of each of its tweets, after everything the run did, and
    then [main] ends on that type error; and no run at all ends normally. *)
Theorem C8_response_str_returns_None `{TweepyApi} :
  (forall (r : Response.t) (w w' : world) v,
      Response.__str__ r w = (Ok v, w') -> v = VNone)
  /\ (forall (r : Response.t) (strs : list string) (w : world),
         Forall2 (fun t s => Tweet.__str__ t = Ok s) (Response.tweets r) strs ->
         print r w
         = (Raise (TypeError "__str__ returned non-string (type NoneType)"),
            {| net := net w; trace := trace w ++ map Print strs |}))
  /\ (forall environ (w : world), is_ok (fst (main environ w)) = false)
  /\ (forall environ tk (session : Query.t) (r : Response.t) (strs : list string)
             (w w1 : world),
         load_tokens environ = Ok tk ->
         Query.run (session_of tk) tweet_fields w = (Ok session, w1) ->
         Query.response session = Some r ->
         Forall2 (fun t s => Tweet.__str__ t = Ok s) (Response.tweets r) strs ->
         main environ w
         = (Raise (TypeError "__str__ returned non-string (type NoneType)"),
            {| net := net w1; trace := trace w1 ++ map Print strs |})).
Proof.
  assert (P : forall (r : Response.t) (strs : list string) (w : world),
             Forall2 (fun t s => Tweet.__str__ t = Ok s) (Response.tweets r) strs ->
             print r w
             = (Raise (TypeError "__str__ returned non-string (type NoneType)"),
                {| net := net w; trace := trace w ++ map Print strs |})).
  { intros r strs w Hall.
    unfold print, str, dunder_str, Response_HasStr, bind at 1 2.
    unfold Response.__str__, bind. now rewrite (for_each_print _ _ Hall). }
  split; [|split; [|split]].
  - intros r w w' v. apply Response_str_value.
  - exact P.
  - intros environ w. destruct (load_tokens environ) as [tk|e] eqn:Htk.
    + rewrite (main_with_tokens _ _ _ Htk). cbv zeta.
      destruct (Query.run _ _ w) as [[query|e] w1]; [|reflexivity].
      destruct (Query.response query) as [r|]; [|reflexivity].
      apply print_response.
    + unfold main, bind, lift. now rewrite Htk.
  - intros environ tk session r strs w w1 Htk Hrun Hr Hall.
    rewrite (main_with_tokens _ _ _ Htk). cbv zeta.
    change (Query.run (session_of tk) tweet_fields w) with
      (Query.run {| Query.client := client_of tk; Query.query := Some golden_query;
                    Query.response := None |} tweet_fields w) in Hrun.
    unfold client_of in Hrun. rewrite Hrun, Hr. now apply P.
Qed.

Lemma C7_rendering_prints_batch_witness :
  @Response.__str__ Demo.data Demo.api Demo.held Demo.w0
  = (Ok VNone, @Build_world Demo.data Demo.api 0%nat [Print Demo.text42; Print Demo.text43])
  /\ exists session w1 r,
      @Query.run Demo.data Demo.api
        {| Query.client := Demo.client; Query.query := Some golden_query;
           Query.response := None |} tweet_fields Demo.w0
      = (Ok session, w1)
      /\ Query.response session = Some r
      /\ main Demo.environ Demo.w0 = print r w1.
Proof.
  split.
  - apply (proj1 (@C7_rendering_prints_batch Demo.data Demo.api) Demo.held
             [Demo.text42; Demo.text43] Demo.w0).
    repeat constructor.
  - destruct (@Query.run Demo.data Demo.api
                {| Query.client := Demo.client; Query.query := Some golden_query;
                   Query.response := None |} tweet_fields Demo.w0)
      as [[session|e] w1] eqn:E; [|vm_compute in E; discriminate].
    destruct (proj2 (@C7_rendering_prints_batch Demo.data Demo.api) Demo.environ
                {| tok_bearer_token := "b"; tok_consumer_secret := "cs";
                   tok_consumer_key := "ck"; tok_access_token := "at";
                   tok_access_token_secret := "ats" |} session Demo.w0 w1)
      as (r & Hr & Hmain & _).
    + vm_compute; reflexivity.
    + exact E.
    + exists session, w1, r. auto.
Defined.

Lemma C8_response_str_returns_None_witness :
  @print Demo.data Demo.api _ Response_HasStr Demo.held Demo.w0
  = (Raise (TypeError "__str__ returned non-string (type NoneType)"),
     @Build_world Demo.data Demo.api 0%nat [Print Demo.text42; Print Demo.text43])
  /\ is_ok (fst (@main Demo.data Demo.api Demo.environ Demo.w0)) = false
  /\ @main Demo.data Demo.api Demo.environ Demo.w0
     = (Raise (TypeError "__str__ returned non-string (type NoneType)"),
        @Build_world Demo.data Demo.api 3%nat
          [SearchRecentTweets Demo.client golden_query tweet_fields;
           GetUser Demo.client 7; GetUser Demo.client 7;
           Print Demo.text42; Print Demo.text43]).
Proof.
  split; [|split].
  - apply (proj1 (proj2 (@C8_response_str_returns_None Demo.data Demo.api)) Demo.held
             [Demo.text42; Demo.text43] Demo.w0).
    repeat constructor.
  - apply (proj1 (proj2 (proj2 (@C8_response_str_returns_None Demo.data Demo.api)))).
  - apply (proj2 (proj2 (proj2 (@C8_response_str_returns_None Demo.data Demo.api)))
             Demo.environ
             {| tok_bearer_token := "b"; tok_consumer_secret := "cs";
                tok_consumer_key := "ck"; tok_access_token := "at";
                tok_access_token_secret := "ats" |}
             {| Query.client := Demo.client; Query.query := Some golden_query;
                Query.response := Some Demo.held |}
             Demo.held [Demo.text42; Demo.text43] Demo.w0
             (@Build_world Demo.data Demo.api 3%nat
                [SearchRecentTweets Demo.client golden_query tweet_fields;
                 GetUser Demo.client 7; GetUser Demo.client 7])).
    + vm_compute; reflexivity.
    + reflexivity.
    + reflexivity.
    + repeat constructor.
Defined.

(** ** The script on the small instance, end to end *)

Example main_on_demo :
  @main Demo.data Demo.api Demo.environ Demo.w0
  = (Raise (TypeError "__str__ returned non-string (type NoneType)"),
     @Build_world Demo.data Demo.api 3%nat
       [SearchRecentTweets Demo.client golden_query tweet_fields;
        GetUser Demo.client 7; GetUser Demo.client 7;
        Print Demo.text42; Print Demo.text43]).
Proof. vm_compute. reflexivity. Qed.

Example cleaner_stops_at_first_failure :
  @response_cleaner Demo.data Demo.api Demo.client
    {| tweepy.data :=
         Some [Demo.raw42; Demo.raw44; Demo.raw43] |} Demo.w0
  = (Raise (ApiError "404 Not Found"),
     @Build_world Demo.data Demo.api 2%nat [GetUser Demo.client 7; GetUser Demo.client 8]).
Proof. vm_compute. reflexivity. Qed.

Example str_int_examples :
  Py.str_int 0 = "0" /\ Py.str_int 42 = "42" /\ Py.str_int (-17) = "-17"
  /\ Py.str_int 1500000000000000000 = "1500000000000000000".
Proof. repeat split; reflexivity. Qed.

(** * Further properties of the script *)

(** ** Rendering a tweet *)

(** The text of a tweet whose list of referenced tweets is not empty: the
    list as [str] shows it, a newline, and then the same two lines as
    without context. *)
Theorem render_with_context `{TweepyData}
    (p : Tweet.t) (c : ReferencedTweet) (ctx : list ReferencedTweet) (u : string) :
  Tweet.context p = Some (c :: ctx) ->
  Tweet.user_name p = VStr u ->
  Tweet.__str__ p
  = Ok ("[" +:+ Py.join ", " (map repr_ReferencedTweet (c :: ctx)) +:+ "]" +:+ Py.NL
        +:+ u +:+ " at " +:+ str_datetime (Tweet.time p) +:+ ":" +:+ Py.TAB
        +:+ Tweet.text p +:+ Py.NL
        +:+ Py.TAB +:+ Tweet.link p).
Proof.
  intros Hctx Hu. unfold Tweet.__str__. rewrite Hctx, Hu.
  cbn [Tweet.truthy default Py.str_add]. unfold Py.str_list.
  f_equal. change ("" +:+ ?x) with x. now rewrite !str_app_assoc.
Qed.

Lemma render_with_context_witness :
  @Tweet.__str__ Demo.data Demo.post43
  = Ok ("[<ReferencedTweet id=42 type=replied_to>]" +:+ Py.NL
        +:+ "bob at U:" +:+ Py.TAB +:+ "ho" +:+ Py.NL
        +:+ Py.TAB +:+ "https://www.twitter.com/user/status/43").
Proof.
  exact (@render_with_context Demo.data Demo.post43 (42%Z, "replied_to") [] "bob"
           eq_refl eq_refl).
Defined.

(** The constructor takes whatever value the profile has under [username];
    the text of the tweet exists exactly when that value is a [str], and is
    a type error otherwise. *)
Theorem username_must_be_str `{TweepyData} :
  (forall (tweet : tweepy.Tweet) (user : tweepy.Response tweepy.User)
          (d : tweepy.User) (v : pyval),
      tweepy.data user = Some d -> d !! "username" = Some v ->
      exists p, Tweet.__init__ tweet (Some user) = Ok p /\ Tweet.user_name p = v)
  /\ (forall p : Tweet.t,
         is_ok (Tweet.__str__ p) = true <-> exists u, Tweet.user_name p = VStr u)
  /\ (forall p : Tweet.t,
         is_ok (Tweet.__str__ p) = false ->
         exists m, Tweet.__str__ p = Raise (TypeError m)).
Proof.
  split; [|split].
  - intros tweet user d v Hd Hv. unfold Tweet.__init__. rewrite Hd, Hv.
    eexists. split; reflexivity.
  - intros p. unfold Tweet.__str__.
    destruct (Tweet.user_name p) as [|z|u]; cbn [Py.str_add is_ok]; split;
      try discriminate; eauto; now intros [u' [=]].
  - intros p. unfold Tweet.__str__.
    destruct (Tweet.user_name p) as [|z|u]; cbn [Py.str_add is_ok];
      try discriminate; eauto.
Qed.

Lemma username_must_be_str_witness :
  @Tweet.__init__ Demo.data Demo.raw46 (Some {| tweepy.data := Some Demo.numbered |})
  = Ok Demo.post46
  /\ @Tweet.__str__ Demo.data Demo.post46
     = Raise (TypeError ("can only concatenate str (not " +:+ String "034"%char "int"
                         +:+ String "034"%char ") to str"))
  /\ is_ok (@Tweet.__str__ Demo.data Demo.post42) = true.
Proof.
  destruct (@username_must_be_str Demo.data) as (Hinit & Hiff & Herr).
  split; [|split].
  - destruct (Hinit Demo.raw46 {| tweepy.data := Some Demo.numbered |} Demo.numbered
                (VInt 10) eq_refl) as [p [Hp _]]; [vm_compute; reflexivity|].
    rewrite Hp. vm_compute in Hp. injection Hp as <-. reflexivity.
  - destruct (Herr Demo.post46) as [m Hm]; [reflexivity|].
    rewrite Hm. vm_compute in Hm. injection Hm as <-. reflexivity.
  - apply Hiff. exists "bob". reflexivity.
Defined.

(** ** Printing a response *)

Lemma print_tweet_Raise `{TweepyApi} (t : Tweet.t) e (w : world) :
  Tweet.__str__ t = Raise e -> print t w = (Raise e, w).
Proof.
  intros Hs. unfold print, str, dunder_str, Tweet_HasStr, bind, lift.
  now rewrite Hs.
Qed.

(** A loop over two lists one after the other is the two loops in a row,
    the second one run only when the first came to its end. *)
Lemma for_each_app `{TweepyApi} {A} (l1 l2 : list A) (body : A -> M unit) (w : world) :
  for_each (l1 ++ l2) body w
  = match for_each l1 body w with
    | (Ok _, w1) => for_each l2 body w1
    | (Raise e, w1) => (Raise e, w1)
    end.
Proof.
  revert w. induction l1 as [|x l1 IH]; intros w; [reflexivity|].
  cbn [app for_each]. unfold bind.
  destruct (body x w) as [[[]|e] w1]; [apply IH | reflexivity].
Qed.

(** Printing a response stops at the first tweet that has no text: the
    tweets before it are printed, in order, the error of that tweet comes
    out, and nothing of the tweets after it is printed. *)
Theorem printing_stops_at_first_failure `{TweepyApi}
    (r : Response.t) (pre post : list Tweet.t) (t : Tweet.t)
    (strs : list string) (e : exn) (w : world) :
  Response.tweets r = (pre ++ t :: post)%list ->
  Forall2 (fun t s => Tweet.__str__ t = Ok s) pre strs ->
  Tweet.__str__ t = Raise e ->
  Response.__str__ r w
  = (Raise e, {| net := net w; trace := trace w ++ map Print strs |})
  /\ print r w
     = (Raise e, {| net := net w; trace := trace w ++ map Print strs |}).
Proof.
  intros Htweets Hpre Ht.
  assert (E : Response.__str__ r w
              = (Raise e, {| net := net w; trace := trace w ++ map Print strs |})).
  { unfold Response.__str__, bind. rewrite Htweets, for_each_app.
    rewrite (for_each_print _ _ Hpre). cbn [for_each]. unfold bind.
    now rewrite (print_tweet_Raise _ _ _ Ht). }
  split; [exact E|].
  unfold print, str, dunder_str, Response_HasStr, bind. now rewrite E.
Qed.

Lemma printing_stops_at_first_failure_witness :
  @Response.__str__ Demo.data Demo.api
    {| Response.client := Demo.client;
       Response.tweets := [Demo.post42; Demo.post46; Demo.post43] |} Demo.w0
  = (Raise (TypeError ("can only concatenate str (not " +:+ String "034"%char "int"
                       +:+ String "034"%char ") to str")),
     @Build_world Demo.data Demo.api 0%nat [Print Demo.text42])
  /\ @print Demo.data Demo.api _ Response_HasStr
       {| Response.client := Demo.client;
          Response.tweets := [Demo.post42; Demo.post46; Demo.post43] |} Demo.w0
     = (Raise (TypeError ("can only concatenate str (not " +:+ String "034"%char "int"
                          +:+ String "034"%char ") to str")),
        @Build_world Demo.data Demo.api 0%nat [Print Demo.text42]).
Proof.
  apply (@printing_stops_at_first_failure Demo.data Demo.api
           {| Response.client := Demo.client;
              Response.tweets := [Demo.post42; Demo.post46; Demo.post43] |}
           [Demo.post42] [Demo.post43] Demo.post46 [Demo.text42]).
  - reflexivity.
  - repeat constructor.
  - reflexivity.
Defined.

(** ** The cleaner on a batch in two parts *)

Lemma response_cleaner_loop_app `{TweepyApi}
    client (l1 l2 : list tweepy.Tweet) (tweet_list : list Tweet.t) (w : world) :
  response_cleaner_loop client (l1 ++ l2) tweet_list w
  = match response_cleaner_loop client l1 tweet_list w with
    | (Ok tweet_list', w1) => response_cleaner_loop client l2 tweet_list' w1
    | (Raise e, w1) => (Raise e, w1)
    end.
Proof.
  revert tweet_list w. induction l1 as [|tweet l1 IH]; intros tweet_list w;
    [reflexivity|].
  cbn [app]. rewrite !response_cleaner_loop_cons. cbv zeta.
  destruct (fst (api_get_user client (tweepy.author_id tweet) (net w)));
    [|reflexivity].
  destruct (Tweet.__init__ tweet _); [apply IH | reflexivity].
Qed.

(** The list the loop returns is the list it started from followed by what
    it would have returned from the empty list. *)
Lemma response_cleaner_loop_acc `{TweepyApi}
    client (data : list tweepy.Tweet) (tweet_list : list Tweet.t) (w : world) :
  response_cleaner_loop client data tweet_list w
  = match response_cleaner_loop client data [] w with
    | (Ok new, w1) => (Ok (tweet_list ++ new)%list, w1)
    | (Raise e, w1) => (Raise e, w1)
    end.
Proof.
  revert tweet_list w. induction data as [|tweet data IH]; intros tweet_list w.
  - cbn [response_cleaner_loop]. unfold ret. now rewrite app_nil_r.
  - rewrite !response_cleaner_loop_cons. cbv zeta.
    destruct (fst (api_get_user client (tweepy.author_id tweet) (net w)));
      [|reflexivity].
    destruct (Tweet.__init__ tweet _) as [t|e]; [|reflexivity].
    rewrite (IH (tweet_list ++ [t])%list), (IH ([] ++ [t])%list).
    destruct (response_cleaner_loop client data [] _) as [[new|e] w1]; [|reflexivity].
    now rewrite <- app_assoc.
Qed.

Lemma cleaner_of_two_parts_eq `{TweepyApi}
    client (batch1 batch2 : list tweepy.Tweet) (w : world) :
  response_cleaner client {| tweepy.data := Some (batch1 ++ batch2)%list |} w
  = match response_cleaner client {| tweepy.data := Some batch1 |} w with
    | (Raise e, w1) => (Raise e, w1)
    | (Ok tweets1, w1) =>
        match response_cleaner client {| tweepy.data := Some batch2 |} w1 with
        | (Raise e, w2) => (Raise e, w2)
        | (Ok tweets2, w2) => (Ok (tweets1 ++ tweets2)%list, w2)
        end
    end.
Proof.
  unfold response_cleaner. cbn [tweepy.data].
  rewrite response_cleaner_loop_app.
  destruct (response_cleaner_loop client batch1 [] w) as [[tweets1|e] w1]; [|reflexivity].
  apply response_cleaner_loop_acc.
Qed.

(** Cleaning a batch made of two parts is cleaning the first part and then,
    from the world this leaves, the second: the lists are joined in order,
    and the second part is not touched when the first one fails. *)
Theorem cleaner_of_two_parts `{TweepyApi}
    client (batch1 batch2 : list tweepy.Tweet) (w : world) :
  response_cleaner client {| tweepy.data := Some (batch1 ++ batch2)%list |} w
  = match response_cleaner client {| tweepy.data := Some batch1 |} w with
    | (Raise e, w1) => (Raise e, w1)
    | (Ok tweets1, w1) =>
        match response_cleaner client {| tweepy.data := Some batch2 |} w1 with
        | (Raise e, w2) => (Raise e, w2)
        | (Ok tweets2, w2) => (Ok (tweets1 ++ tweets2)%list, w2)
        end
    end.
Proof.
  unfold response_cleaner. cbn [tweepy.data].
  rewrite response_cleaner_loop_app.
  destruct (response_cleaner_loop client batch1 [] w) as [[tweets1|e] w1]; [|reflexivity].
  apply response_cleaner_loop_acc.
Qed.

(** ** The cleaner when a turn fails *)

(** Where the cleaner stands after a part of the batch that went well. *)
Lemma response_cleaner_Ok_trace `{TweepyApi} client batch tweets (w w1 : world) :
  response_cleaner client {| tweepy.data := Some batch |} w = (Ok tweets, w1) ->
  trace w1 = (trace w ++ map (fun t => GetUser client (tweepy.author_id t)) batch)%list.
Proof.
  unfold response_cleaner. cbn [tweepy.data]. intros E.
  destruct (response_cleaner_loop_spec client batch [] w) as (k & _ & Htr & Hok).
  rewrite E in Htr, Hok. destruct (Hok tweets eq_refl) as (-> & _).
  now rewrite firstn_all in Htr.
Qed.

(** The turn of one raw tweet: its error, if it has one. *)
Lemma cleaner_turn_fails `{TweepyApi}
    client (pre post : list tweepy.Tweet) (t : tweepy.Tweet)
    (tweets : list Tweet.t) (e : exn) (w w1 : world) :
  response_cleaner client {| tweepy.data := Some pre |} w = (Ok tweets, w1) ->
  match fst (api_get_user client (tweepy.author_id t) (net w1)) with
  | Raise e' => e' = e
  | Ok user => Tweet.__init__ t (Some user) = Raise e
  end ->
  response_cleaner client {| tweepy.data := Some (pre ++ t :: post)%list |} w
  = (Raise e,
     {| net := snd (api_get_user client (tweepy.author_id t) (net w1));
        trace := trace w ++ map (fun t => GetUser client (tweepy.author_id t))
                              (pre ++ [t]) |}).
Proof.
  intros Hpre Hturn. rewrite cleaner_of_two_parts_eq, Hpre.
  unfold response_cleaner at 1. cbn [tweepy.data].
  rewrite response_cleaner_loop_cons. cbv zeta.
  rewrite (response_cleaner_Ok_trace _ _ _ _ _ Hpre), map_app, app_assoc.
  destruct (fst (api_get_user client (tweepy.author_id t) (net w1))) as [user|e'].
  - now rewrite Hturn.
  - now subst.
Qed.

(** When the lookup of one author raises, the cleaner raises that error:
    the authors of the tweets before it and its own author were looked up,
    once each and in order, the tweets after it never are, and no list
    comes back. *)
Theorem cleaner_stops_at_failed_lookup `{TweepyApi}
    client (pre post : list tweepy.Tweet) (t : tweepy.Tweet)
    (tweets : list Tweet.t) (e : exn) (w w1 : world) :
  response_cleaner client {| tweepy.data := Some pre |} w = (Ok tweets, w1) ->
  fst (api_get_user client (tweepy.author_id t) (net w1)) = Raise e ->
  response_cleaner client {| tweepy.data := Some (pre ++ t :: post)%list |} w
  = (Raise e,
     {| net := snd (api_get_user client (tweepy.author_id t) (net w1));
        trace := trace w ++ map (fun t => GetUser client (tweepy.author_id t))
                              (pre ++ [t]) |}).
Proof.
  intros Hpre Hget. apply (cleaner_turn_fails _ _ _ _ _ _ _ _ Hpre). now rewrite Hget.
Qed.

Lemma cleaner_stops_at_failed_lookup_witness :
  @response_cleaner Demo.data Demo.api Demo.client
    {| tweepy.data := Some [Demo.raw42; Demo.raw44; Demo.raw43] |} Demo.w0
  = (Raise (ApiError "404 Not Found"),
     @Build_world Demo.data Demo.api 2%nat [GetUser Demo.client 7; GetUser Demo.client 8]).
Proof.
  exact (@cleaner_stops_at_failed_lookup Demo.data Demo.api Demo.client
           [Demo.raw42] [Demo.raw43] Demo.raw44 [Demo.post42]
           (ApiError "404 Not Found") Demo.w0
           (@Build_world Demo.data Demo.api 1%nat [GetUser Demo.client 7])
           eq_refl eq_refl).
Defined.

(** When a lookup answers without a profile (the user was not found), or
    with a profile that has no [username], the cleaner raises, a type error
    in the first case and the key error of [username] in the second, right
    after that lookup: the tweets after it are not looked up and no list
    comes back. *)
Theorem cleaner_stops_at_bad_profile `{TweepyApi}
    client (pre post : list tweepy.Tweet) (t : tweepy.Tweet)
    (tweets : list Tweet.t) (user : tweepy.Response tweepy.User) (w w1 : world) :
  response_cleaner client {| tweepy.data := Some pre |} w = (Ok tweets, w1) ->
  fst (api_get_user client (tweepy.author_id t) (net w1)) = Ok user ->
  (tweepy.data user = None ->
   response_cleaner client {| tweepy.data := Some (pre ++ t :: post)%list |} w
   = (Raise (TypeError "'NoneType' object is not subscriptable"),
      {| net := snd (api_get_user client (tweepy.author_id t) (net w1));
         trace := trace w ++ map (fun t => GetUser client (tweepy.author_id t))
                               (pre ++ [t]) |}))
  /\ (forall d, tweepy.data user = Some d -> d !! "username" = None ->
      response_cleaner client {| tweepy.data := Some (pre ++ t :: post)%list |} w
      = (Raise (KeyError "username"),
         {| net := snd (api_get_user client (tweepy.author_id t) (net w1));
            trace := trace w ++ map (fun t => GetUser client (tweepy.author_id t))
                                  (pre ++ [t]) |})).
Proof.
  intros Hpre Hget. split.
  - intros Hd. apply (cleaner_turn_fails _ _ _ _ _ _ _ _ Hpre).
    rewrite Hget. unfold Tweet.__init__. now rewrite Hd.
  - intros d Hd Hn. apply (cleaner_turn_fails _ _ _ _ _ _ _ _ Hpre).
    rewrite Hget. unfold Tweet.__init__. now rewrite Hd, Hn.
Qed.

Lemma cleaner_stops_at_bad_profile_witness :
  @response_cleaner Demo.data (Demo.service None) Demo.client
    {| tweepy.data := Some [Demo.raw42; Demo.raw45; Demo.raw43] |}
    (@Build_world Demo.data (Demo.service None) 0%nat [])
  = (Raise (TypeError "'NoneType' object is not subscriptable"),
     @Build_world Demo.data (Demo.service None) 2%nat
       [GetUser Demo.client 7; GetUser Demo.client 9])
  /\ @response_cleaner Demo.data (Demo.service None) Demo.client
       {| tweepy.data := Some [Demo.raw42; Demo.raw44; Demo.raw43] |}
       (@Build_world Demo.data (Demo.service None) 0%nat [])
     = (Raise (KeyError "username"),
        @Build_world Demo.data (Demo.service None) 2%nat
          [GetUser Demo.client 7; GetUser Demo.client 8]).
Proof.
  split.
  - apply (proj1 (@cleaner_stops_at_bad_profile Demo.data (Demo.service None) Demo.client
                    [Demo.raw42] [Demo.raw43] Demo.raw45 [Demo.post42]
                    {| tweepy.data := None |}
                    (@Build_world Demo.data (Demo.service None) 0%nat [])
                    (@Build_world Demo.data (Demo.service None) 1%nat
                       [GetUser Demo.client 7])
                    eq_refl eq_refl)).
    reflexivity.
  - apply (proj2 (@cleaner_stops_at_bad_profile Demo.data (Demo.service None) Demo.client
                    [Demo.raw42] [Demo.raw43] Demo.raw44 [Demo.post42]
                    {| tweepy.data := Some Demo.nameless |}
                    (@Build_world Demo.data (Demo.service None) 0%nat [])
                    (@Build_world Demo.data (Demo.service None) 1%nat
                       [GetUser Demo.client 7])
                    eq_refl eq_refl) Demo.nameless).
    + reflexivity.
    + vm_compute; reflexivity.
Defined.

(** ** The whole program *)

(** [main] once the tokens are read and the search has answered. *)
Lemma main_after_search `{TweepyApi} environ tk response (w : world) :
  load_tokens environ = Ok tk ->
  fst (api_search_recent_tweets (client_of tk) golden_query tweet_fields (net w))
  = Ok response ->
  main environ w
  = match response_cleaner (client_of tk) response
            {| net := snd (api_search_recent_tweets (client_of tk) golden_query
                             tweet_fields (net w));
               trace := trace w ++ [SearchRecentTweets (client_of tk) golden_query
                                      tweet_fields] |} with
    | (Raise e, w2) => (Raise e, w2)
    | (Ok tweets, w2) =>
        print {| Response.client := client_of tk; Response.tweets := tweets |} w2
    end.
Proof.
  intros Htk Hsearch. rewrite (main_with_tokens _ _ _ Htk). cbv zeta.
  rewrite (run_with_query _ golden_query) by reflexivity. cbv zeta.
  cbn [Query.client]. fold (client_of tk). rewrite Hsearch.
  now destruct (response_cleaner _ _ _) as [[tweets|e] w2].
Qed.

(** The print of a response whose tweets all have a text. *)
Lemma print_response_rendered `{TweepyApi} (r : Response.t) strs (w : world) :
  Forall2 (fun t s => Tweet.__str__ t = Ok s) (Response.tweets r) strs ->
  print r w
  = (Raise (TypeError "__str__ returned non-string (type NoneType)"),
     {| net := net w; trace := trace w ++ map Print strs |}).
Proof.
  intros Hall. unfold print, str, dunder_str, Response_HasStr, bind at 1 2.
  unfold Response.__str__, bind. now rewrite (for_each_print _ _ Hall).
Qed.

(** A search that matches nothing: whether the answer has no data at all or
    an empty list, the program sends that one request, looks nobody up,
    prints nothing and ends on a type error, of the loop over [None] in the
    first case and of the final [print] in the second. *)
Theorem search_without_match `{TweepyApi}
    environ tk (response : tweepy.Response (list tweepy.Tweet)) (w : world) :
  load_tokens environ = Ok tk ->
  fst (api_search_recent_tweets (client_of tk) golden_query tweet_fields (net w))
  = Ok response ->
  (tweepy.data response = None ->
   main environ w
   = (Raise (TypeError "'NoneType' object is not iterable"),
      {| net := snd (api_search_recent_tweets (client_of tk) golden_query
                       tweet_fields (net w));
         trace := trace w ++ [SearchRecentTweets (client_of tk) golden_query
                                tweet_fields] |}))
  /\ (tweepy.data response = Some [] ->
      main environ w
      = (Raise (TypeError "__str__ returned non-string (type NoneType)"),
         {| net := snd (api_search_recent_tweets (client_of tk) golden_query
                          tweet_fields (net w));
            trace := trace w ++ [SearchRecentTweets (client_of tk) golden_query
                                   tweet_fields] |})).
Proof.
  intros Htk Hsearch. rewrite (main_after_search _ _ _ _ Htk Hsearch).
  unfold response_cleaner. split; intros ->.
  - reflexivity.
  - cbn [response_cleaner_loop]. unfold ret.
    rewrite (print_response_rendered _ []) by constructor.
    cbn [net trace map]. now rewrite app_nil_r.
Qed.

Lemma search_without_match_witness :
  @main Demo.data (Demo.service None) Demo.environ
    (@Build_world Demo.data (Demo.service None) 0%nat [])
  = (Raise (TypeError "'NoneType' object is not iterable"),
     @Build_world Demo.data (Demo.service None) 1%nat
       [SearchRecentTweets Demo.client golden_query tweet_fields])
  /\ @main Demo.data (Demo.service (Some [])) Demo.environ
       (@Build_world Demo.data (Demo.service (Some [])) 0%nat [])
     = (Raise (TypeError "__str__ returned non-string (type NoneType)"),
        @Build_world Demo.data (Demo.service (Some [])) 1%nat
          [SearchRecentTweets Demo.client golden_query tweet_fields]).
Proof.
  split.
  - apply (proj1 (@search_without_match Demo.data (Demo.service None) Demo.environ
                    {| tok_bearer_token := "b"; tok_consumer_secret := "cs";
                       tok_consumer_key := "ck"; tok_access_token := "at";
                       tok_access_token_secret := "ats" |}
                    {| tweepy.data := None |}
                    (@Build_world Demo.data (Demo.service None) 0%nat [])
                    ltac:(vm_compute; reflexivity) eq_refl)).
    reflexivity.
  - apply (proj2 (@search_without_match Demo.data (Demo.service (Some [])) Demo.environ
                    {| tok_bearer_token := "b"; tok_consumer_secret := "cs";
                       tok_consumer_key := "ck"; tok_access_token := "at";
                       tok_access_token_secret := "ats" |}
                    {| tweepy.data := Some [] |}
                    (@Build_world Demo.data (Demo.service (Some [])) 0%nat [])
                    ltac:(vm_compute; reflexivity) eq_refl)).
    reflexivity.
Defined.

(** The cleaner only ever adds lookups to the trace. *)
Lemma response_cleaner_lookups `{TweepyApi} client response (w : world) :
  exists ids,
    trace (snd (response_cleaner client response w))
    = (trace w ++ map (GetUser client) ids)%list.
Proof.
  unfold response_cleaner. destruct (tweepy.data response) as [batch|].
  - destruct (response_cleaner_loop_spec client batch [] w) as (k & _ & Htr & _).
    exists (map tweepy.author_id (firstn k batch)). now rewrite Htr, map_map.
  - exists []. simpl. now rewrite app_nil_r.
Qed.

(** The loop of [Response.__str__] only ever adds prints, and leaves the
    remote service alone. *)
Lemma for_each_print_shape `{TweepyApi} (tweets : list Tweet.t) (w : world) :
  exists strs,
    snd (for_each tweets (fun tweet => print tweet) w)
    = {| net := net w; trace := trace w ++ map Print strs |}.
Proof.
  revert w. induction tweets as [|t tweets IH]; intros w.
  - exists []. simpl. rewrite app_nil_r. now destruct w.
  - cbn [for_each]. unfold bind. destruct (Tweet.__str__ t) as [s|e] eqn:Hs.
    + rewrite (print_tweet _ _ _ Hs).
      match goal with |- context [for_each tweets _ ?w1] =>
        destruct (IH w1) as [strs Hstrs] end.
      exists (s :: strs). rewrite Hstrs. cbn [net trace map]. now rewrite <- app_assoc.
    + rewrite (print_tweet_Raise _ _ _ Hs). exists []. simpl.
      rewrite app_nil_r. now destruct w.
Qed.

Lemma Response_str_shape `{TweepyApi} (r : Response.t) (w : world) :
  exists strs,
    snd (Response.__str__ r w)
    = {| net := net w; trace := trace w ++ map Print strs |}.
Proof.
  destruct (for_each_print_shape (Response.tweets r) w) as [strs Hstrs].
  exists strs. unfold Response.__str__, bind.
  now destruct (for_each _ _ w) as [[[]|e] w1].
Qed.

Lemma no_output_when_run_fails_eq `{TweepyApi} environ tk (e : exn) (w w1 : world) :
  load_tokens environ = Ok tk ->
  Query.run (session_of tk) tweet_fields w = (Raise e, w1) ->
  main environ w = (Raise e, w1)
  /\ exists ids,
      trace w1
      = (trace w ++ SearchRecentTweets (client_of tk) golden_query tweet_fields
                    :: map (GetUser (client_of tk)) ids)%list.
Proof.
  intros Htk Hrun. split.
  - rewrite (main_with_tokens _ _ _ Htk). cbv zeta.
    change (Query.run (session_of tk) tweet_fields w) with
      (Query.run {| Query.client := client_of tk; Query.query := Some golden_query;
                    Query.response := None |} tweet_fields w) in Hrun.
    unfold client_of in Hrun. now rewrite Hrun.
  - rewrite (run_with_query _ golden_query) in Hrun by reflexivity. cbv zeta in Hrun.
    cbn [session_of Query.client] in Hrun.
    destruct (fst (api_search_recent_tweets _ _ _ _)) as [response|e'].
    + match type of Hrun with context [response_cleaner ?c ?r ?w0] =>
        destruct (response_cleaner_lookups c r w0) as [ids Hids];
        destruct (response_cleaner c r w0) as [[tweets|e'] w2] end;
        [discriminate|].
      injection Hrun as <- <-. exists ids. cbn [snd trace] in Hids.
      now rewrite Hids, <- app_assoc.
    + injection Hrun as <- <-. exists []. reflexivity.
Qed.

(** Nothing is printed unless the whole batch was resolved: when the run
    raises, whether in the search, in a lookup or in the constructor of a
    tweet, the program ends on that error, and all it has done is the search
    followed by lookups. *)
Theorem no_output_when_run_fails `{TweepyApi} environ tk (e : exn) (w w1 : world) :
  load_tokens environ = Ok tk ->
  Query.run (session_of tk) tweet_fields w = (Raise e, w1) ->
  main environ w = (Raise e, w1)
  /\ exists ids,
      trace w1
      = (trace w ++ SearchRecentTweets (client_of tk) golden_query tweet_fields
                    :: map (GetUser (client_of tk)) ids)%list.
Proof.
  intros Htk Hrun. split.
  - rewrite (main_with_tokens _ _ _ Htk). cbv zeta.
    change (Query.run (session_of tk) tweet_fields w) with
      (Query.run {| Query.client := client_of tk; Query.query := Some golden_query;
                    Query.response := None |} tweet_fields w) in Hrun.
    unfold client_of in Hrun. now rewrite Hrun.
  - rewrite (run_with_query _ golden_query) in Hrun by reflexivity. cbv zeta in Hrun.
    cbn [session_of Query.client] in Hrun.
    destruct (fst (api_search_recent_tweets _ _ _ _)) as [response|e'].
    + match type of Hrun with context [response_cleaner ?c ?r ?w0] =>
        destruct (response_cleaner_lookups c r w0) as [ids Hids];
        destruct (response_cleaner c r w0) as [[tweets|e'] w2] end;
        [discriminate|].
      injection Hrun as <- <-. exists ids. cbn [snd trace] in Hids.
      now rewrite Hids, <- app_assoc.
    + injection Hrun as <- <-. exists []. reflexivity.
Qed.

Lemma no_output_when_run_fails_witness :
  @main Demo.data (Demo.service (Some [Demo.raw42; Demo.raw45; Demo.raw43])) Demo.environ
    (@Build_world Demo.data (Demo.service (Some [Demo.raw42; Demo.raw45; Demo.raw43]))
       0%nat [])
  = (Raise (TypeError "'NoneType' object is not subscriptable"),
     @Build_world Demo.data (Demo.service (Some [Demo.raw42; Demo.raw45; Demo.raw43]))
       3%nat
       [SearchRecentTweets Demo.client golden_query tweet_fields;
        GetUser Demo.client 7; GetUser Demo.client 9]).
Proof.
  apply (@no_output_when_run_fails Demo.data
           (Demo.service (Some [Demo.raw42; Demo.raw45; Demo.raw43])) Demo.environ
           {| tok_bearer_token := "b"; tok_consumer_secret := "cs";
              tok_consumer_key := "ck"; tok_access_token := "at";
              tok_access_token_secret := "ats" |}).
  - vm_compute; reflexivity.
  - reflexivity.
Defined.

(** The order of a run: once the tokens are read, what the program does is
    one search, sent first, with the query of [query_constructor], the
    requested fields and the client built from the tokens; then lookups, all
    through that same client; then prints.  No lookup comes after a print
    and no second search is ever sent. *)
Theorem main_trace_shape `{TweepyApi} environ tk (w : world) :
  load_tokens environ = Ok tk ->
  exists ids strs,
    trace (snd (main environ w))
    = (trace w ++ SearchRecentTweets (client_of tk) golden_query tweet_fields
                  :: map (GetUser (client_of tk)) ids ++ map Print strs)%list.
Proof.
  intros Htk.
  destruct (Query.run (session_of tk) tweet_fields w) as [[session|e] w1] eqn:Hrun.
  - rewrite (main_with_tokens _ _ _ Htk). cbv zeta.
    change (Query.run (session_of tk) tweet_fields w) with
      (Query.run {| Query.client := client_of tk; Query.query := Some golden_query;
                    Query.response := None |} tweet_fields w) in Hrun.
    unfold client_of in Hrun. rewrite Hrun. fold (client_of tk) in Hrun.
    destruct (run_Ok _ _ _ _ _ Hrun)
      as (q & response & batch & tweets & [= <-] & _ & _ & Hclean & ->).
    cbn [Query.response Query.client] in *.
    match type of Hclean with response_cleaner ?c ?r ?w0 = _ =>
      destruct (response_cleaner_lookups c r w0) as [ids Hids] end.
    rewrite Hclean in Hids. cbn [snd trace] in Hids.
    rewrite (proj2 (print_response _ _)).
    match goal with |- context [Response.__str__ ?r ?w0] =>
      destruct (Response_str_shape r w0) as [strs Hstrs] end.
    exists ids, strs. rewrite Hstrs. cbn [trace]. rewrite Hids.
    now rewrite <- !app_assoc.
  - destruct (no_output_when_run_fails_eq _ _ _ _ _ Htk Hrun) as [-> [ids Hids]].
    exists ids, []. cbn [snd map]. now rewrite app_nil_r.
Qed.

Lemma main_trace_shape_witness :
  exists ids strs,
    trace (snd (@main Demo.data Demo.api Demo.environ Demo.w0))
    = SearchRecentTweets Demo.client golden_query tweet_fields
        :: map (GetUser Demo.client) ids ++ map Print strs.
Proof.
  exact (@main_trace_shape Demo.data Demo.api Demo.environ
           {| tok_bearer_token := "b"; tok_consumer_secret := "cs";
              tok_consumer_key := "ck"; tok_access_token := "at";
              tok_access_token_secret := "ats" |} Demo.w0
           ltac:(vm_compute; reflexivity)).
Defined.

(** The loop on a batch whose authors are all answered, whatever the state
    of the service, with profiles the constructor accepts. *)
Lemma response_cleaner_loop_all_ok `{TweepyApi}
    client (users : Z -> tweepy.Response tweepy.User)
    (data : list tweepy.Tweet) (posts : list Tweet.t) :
  (forall t n, In t data ->
     fst (api_get_user client (tweepy.author_id t) n) = Ok (users (tweepy.author_id t))) ->
  Forall2 (fun t p => Tweet.__init__ t (Some (users (tweepy.author_id t))) = Ok p)
    data posts ->
  forall (tweet_list : list Tweet.t) (w : world),
  exists n',
    response_cleaner_loop client data tweet_list w
    = (Ok (tweet_list ++ posts)%list,
       {| net := n';
          trace := trace w ++ map (fun t => GetUser client (tweepy.author_id t)) data |}).
Proof.
  intros Hget Hall. induction Hall as [|t p data posts Hp _ IH]; intros tweet_list w.
  - exists (net w). cbn [response_cleaner_loop map]. unfold ret.
    rewrite !app_nil_r. now destruct w.
  - rewrite response_cleaner_loop_cons. cbv zeta.
    rewrite (Hget t (net w)) by now left. rewrite Hp.
    match goal with |- context [response_cleaner_loop _ _ ?l ?w1] =>
      destruct (IH (fun t n Hin => Hget t n (or_intror Hin)) l w1) as [n' Hn'] end.
    exists n'. rewrite Hn'. cbn [trace map]. now rewrite <- !app_assoc.
Qed.

(** A run in which everything goes well: the search answers with a batch,
    every author of the batch is answered with a profile the constructor
    accepts, and every tweet has a text.  Then the program sends the search,
    looks up the author of each tweet of the batch, once each and in order,
    prints the text of each tweet in the same order, and ends on the type
    error of the final [print]. *)
Theorem main_prints_every_tweet `{TweepyApi}
    environ tk (response : tweepy.Response (list tweepy.Tweet))
    (batch : list tweepy.Tweet) (users : Z -> tweepy.Response tweepy.User)
    (posts : list Tweet.t) (strs : list string) (w : world) :
  load_tokens environ = Ok tk ->
  fst (api_search_recent_tweets (client_of tk) golden_query tweet_fields (net w))
  = Ok response ->
  tweepy.data response = Some batch ->
  (forall t n, In t batch ->
     fst (api_get_user (client_of tk) (tweepy.author_id t) n)
     = Ok (users (tweepy.author_id t))) ->
  Forall2 (fun t p => Tweet.__init__ t (Some (users (tweepy.author_id t))) = Ok p)
    batch posts ->
  Forall2 (fun p s => Tweet.__str__ p = Ok s) posts strs ->
  fst (main environ w) = Raise (TypeError "__str__ returned non-string (type NoneType)")
  /\ trace (snd (main environ w))
     = (trace w ++ SearchRecentTweets (client_of tk) golden_query tweet_fields
                   :: map (fun t => GetUser (client_of tk) (tweepy.author_id t)) batch
                   ++ map Print strs)%list.
Proof.
  intros Htk Hsearch Hdata Hget Hposts Hstrs.
  rewrite (main_after_search _ _ _ _ Htk Hsearch).
  unfold response_cleaner. rewrite Hdata.
  match goal with |- context [response_cleaner_loop _ _ [] ?w1] =>
    destruct (response_cleaner_loop_all_ok _ users batch posts Hget Hposts [] w1)
      as [n' Hn'] end.
  rewrite Hn'. cbn [app].
  rewrite (print_response_rendered _ strs) by exact Hstrs.
  cbn [fst snd net trace]. split; [reflexivity|].
  now rewrite <- !app_assoc.
Qed.

Lemma main_prints_every_tweet_witness :
  fst (@main Demo.data Demo.api Demo.environ Demo.w0)
  = Raise (TypeError "__str__ returned non-string (type NoneType)")
  /\ trace (snd (@main Demo.data Demo.api Demo.environ Demo.w0))
     = [SearchRecentTweets Demo.client golden_query tweet_fields;
        GetUser Demo.client 7; GetUser Demo.client 7;
        Print Demo.text42; Print Demo.text43].
Proof.
  apply (@main_prints_every_tweet Demo.data Demo.api Demo.environ
           {| tok_bearer_token := "b"; tok_consumer_secret := "cs";
              tok_consumer_key := "ck"; tok_access_token := "at";
              tok_access_token_secret := "ats" |}
           {| tweepy.data := Some [Demo.raw42; Demo.raw43] |}
           [Demo.raw42; Demo.raw43] (fun _ => {| tweepy.data := Some Demo.bob |})
           [Demo.post42; Demo.post43] [Demo.text42; Demo.text43] Demo.w0).
  - vm_compute; reflexivity.
  - reflexivity.
  - reflexivity.
  - intros t n [<- | [<- | []]]; reflexivity.
  - repeat constructor.
  - repeat constructor.
Defined.

(** ** The query text for any stems *)

(** The text the builder's expression gives for any list of stems that is
    not empty, each stem made of one or more word characters, matches the
    pattern of the query; the pattern does not depend on which stems the
    list holds or on how many. *)
Theorem query_text_matches_pattern (stems : list string) :
  stems <> [] ->
  Forall word_stem stems ->
  Re.matches query_pattern (query_text stems).
Proof.
  intros Hne Hall. destruct stems as [|x l]; [congruence|].
  inversion Hall as [|? ? Hx Hl]; subst.
  unfold query_text. rewrite join_terms.
  change "(" with (String "(" "").
  rewrite !str_app_assoc.
  apply (Re.MCat (Re.Chr "(")); [constructor|].
  rewrite <- str_app_assoc.
  apply (Re.MCat query_term); [now apply matches_term|].
  apply Re.MCat; [now apply matches_more_terms | apply (matches_Lit ") lang:en")].
Qed.

Lemma query_text_matches_pattern_witness :
  Re.matches query_pattern "(aussy OR b_2ussy) lang:en".
Proof.
  apply (query_text_matches_pattern ["a"; "b_2"]).
  - discriminate.
  - repeat constructor; discriminate.
Defined.

(** ** What the cleaner keeps of the batch *)

(** When the cleaner returns, its list follows the batch tweet by tweet:
    the formatted tweet at each place has the id, the text, the time and the
    referenced tweets of the raw tweet at that place, the permalink of that
    id, and the username found in the profile stored with it. *)
Theorem cleaner_keeps_the_batch `{TweepyApi}
    client (response : tweepy.Response (list tweepy.Tweet))
    (batch : list tweepy.Tweet) (tweets : list Tweet.t) (w w' : world) :
  tweepy.data response = Some batch ->
  response_cleaner client response w = (Ok tweets, w') ->
  Forall2
    (fun p t =>
       Tweet.id p = tweepy.id t
       /\ Tweet.text p = tweepy.text t
       /\ Tweet.time p = tweepy.created_at t
       /\ Tweet.context p = tweepy.referenced_tweets t
       /\ Tweet.link p
          = "https://www.twitter.com/user/status/" +:+ Py.str_int (tweepy.id t)
       /\ exists d, tweepy.data (Tweet.user_resp p) = Some d
                    /\ d !! "username" = Some (Tweet.user_name p))
    tweets batch.
Proof.
  intros Hdata Hclean.
  eapply Forall2_impl; [exact (response_cleaner_Ok _ _ _ _ _ _ Hdata Hclean)|].
  intros p t [u E].
  destruct (Tweet_init_fields _ _ _ E)
    as (Hid & Htext & Hlink & _ & Htime & Hctx & u' & d & _ & <- & Hd & Hn).
  repeat split; eauto.
Qed.

Lemma cleaner_keeps_the_batch_witness :
  exists tweets w',
    @response_cleaner Demo.data Demo.api Demo.client
      {| tweepy.data := Some [Demo.raw42; Demo.raw43] |} Demo.w0 = (Ok tweets, w')
    /\ Forall2
         (fun p t =>
            Tweet.id p = tweepy.id t
            /\ Tweet.text p = tweepy.text t
            /\ Tweet.time p = tweepy.created_at t
            /\ Tweet.context p = tweepy.referenced_tweets t
            /\ Tweet.link p
               = "https://www.twitter.com/user/status/" +:+ Py.str_int (tweepy.id t)
            /\ exists d, tweepy.data (Tweet.user_resp p) = Some d
                         /\ d !! "username" = Some (Tweet.user_name p))
         tweets [Demo.raw42; Demo.raw43].
Proof.
  exists [Demo.post42; Demo.post43],
    (@Build_world Demo.data Demo.api 2%nat [GetUser Demo.client 7; GetUser Demo.client 7]).
  split; [reflexivity|].
  exact (@cleaner_keeps_the_batch Demo.data Demo.api Demo.client
           {| tweepy.data := Some [Demo.raw42; Demo.raw43] |}
           [Demo.raw42; Demo.raw43] [Demo.post42; Demo.post43] Demo.w0
           (@Build_world Demo.data Demo.api 2%nat
              [GetUser Demo.client 7; GetUser Demo.client 7])
           eq_refl eq_refl).
Defined.

(** ** What the loader reads *)

(** The loader looks at the five names and at nothing else: two
    environments that agree on them load alike, whatever else they hold. *)
Theorem loader_reads_only_the_five_names (environ1 environ2 : gmap string string) :
  (forall name, In name token_names -> environ1 !! name = environ2 !! name) ->
  load_tokens environ1 = load_tokens environ2.
Proof.
  intros Hsame. unfold load_tokens, read_tokens, environ_getitem.
  rewrite (Hsame "BEARER_TOKEN"), (Hsame "CONSUMER_SECRET"), (Hsame "CONSUMER_KEY"),
    (Hsame "ACCESS_TOKEN"), (Hsame "ACCESS_TOKEN_SECRET");
    [reflexivity | simpl; tauto ..].
Qed.

Lemma loader_reads_only_the_five_names_witness :
  load_tokens Demo.environ
  = load_tokens (<["PATH" := "/usr/bin"]> (delete "HOME" Demo.environ)).
Proof.
  apply loader_reads_only_the_five_names.
  intros name Hin. simpl in Hin.
  repeat (destruct Hin as [<- | Hin]; [vm_compute; reflexivity|]). destruct Hin.
Defined.
